(** * FileTest: a time-range query helper with a spreadsheet cache

    Shallow embedding of [SRC/FileTest.py] ([query_data_with_cache],
    [clear_cache], [list_cache_files]) and the properties of the cached
    range query that the specification states about it.

    Modelling conventions.
    - A Python [str] is a Rocq [string]; its characters are the code points
      0..255, and [isalnum] is Python's [str.isalnum] on that range.
    - The file system is a finite map from directory paths to what is found
      at that path; a directory is a finite map from entry names to nodes.
    - Every function that touches the file system, the logger or the data
      source is a computation in the monad [M]: it threads the world
      (file system and data-source state), may raise a Python exception, and
      emits the I/O events it performs, in order.
    - [pathlib.Path.glob] is modelled for a pattern of one path segment,
      with the matching rules of [fnmatch] on a POSIX system.
    - A path that is not there is looked up by its text: Python refuses a
      text with a NUL character and the kernel one that is too long, so
      [mkdir] and [exists] can raise on the name alone. An entry that the
      file-system map holds is found, whatever its name: a file system
      holds no entry under a name it refuses.
    - Permissions and device errors are not part of the world: a system
      call fails only for what the file-system map holds and for the name
      it is given. *)

From Stdlib Require Import Ascii String NArith.
From stdpp Require Import gmap strings list fin_maps.

Local Open Scope string_scope.

(** ** Strings *)

Section Strings.

(** [p in s] on Python strings: [p] occurs in [s] as a contiguous run. *)
Fixpoint str_contains (p s : string) : bool :=
  String.prefix p s ||
  match s with
  | EmptyString => false
  | String _ s' => str_contains p s'
  end.

(** [s.endswith(p)]. *)
Fixpoint str_endswith (p s : string) : bool :=
  String.eqb p s ||
  match s with
  | EmptyString => false
  | String _ s' => str_endswith p s'
  end.

(** [c in s] for a single character. *)
Fixpoint str_has_char (c : ascii) (s : string) : bool :=
  match s with
  | EmptyString => false
  | String c' s' => Ascii.eqb c c' || str_has_char c s'
  end.

End Strings.

(** ** The cache key (lines 36-38) *)

Section CacheKey.

(** [str.isalnum] for one character, on the code points 0..255: the ASCII
    digits and letters, and the Latin-1 letters and numeric characters
    (feminine and masculine ordinal, micro sign, superscripts one to three,
    the vulgar fractions, and the accented letters without the
    multiplication and division signs). *)
Definition isalnum (c : ascii) : bool :=
  let n := N_of_ascii c in
  ((48 <=? n) && (n <=? 57) || (65 <=? n) && (n <=? 90)
   || (97 <=? n) && (n <=? 122)
   || (n =? 170) || (n =? 178) || (n =? 179) || (n =? 181)
   || (n =? 185) || (n =? 186)
   || (188 <=? n) && (n <=? 190) || (192 <=? n) && (n <=? 214)
   || (216 <=? n) && (n <=? 246) || (248 <=? n))%N.

(** [c.isalnum() or c in (' ', '-', '_', '.')]. *)
Definition keep_char (c : ascii) : bool :=
  isalnum c
  || existsb (Ascii.eqb c) [" "%char; "-"%char; "_"%char; "."%char].

(** ["".join(c for c in s if keep_char c)]. *)
Definition safe_time (s : string) : string :=
  String.concat ""
    (map (fun c => String c EmptyString)
         (List.filter keep_char (list_ascii_of_string s))).

(** [f"{safe_start_time}_{safe_end_time}.xlsx"]. *)
Definition cache_filename (start_time end_time : string) : string :=
  safe_time start_time +:+ "_" +:+ safe_time end_time +:+ ".xlsx".

(** The specification's wording of the key: delete every character outside
    the allow-list (alphanumeric, space, hyphen, underscore, dot), then
    put an underscore between the two stripped strings. *)
Definition allow_listed (c : ascii) : bool :=
  isalnum c || Ascii.eqb c " " || Ascii.eqb c "-" || Ascii.eqb c "_"
  || Ascii.eqb c ".".

Fixpoint delete_outside_allow_list (s : string) : string :=
  match s with
  | EmptyString => EmptyString
  | String c s' =>
      if allow_listed c then String c (delete_outside_allow_list s')
      else delete_outside_allow_list s'
  end.

Definition spec_cache_key (start_time end_time : string) : string :=
  delete_outside_allow_list start_time +:+ "_"
  +:+ delete_outside_allow_list end_time.

End CacheKey.

(** ** Glob patterns (the matching behind [Path.glob]) *)

Module Glob.

Inductive token :=
| Star                                         (* [*]: any run of characters *)
| AnyChar                                      (* [?]: any one character *)
| Lit (c : ascii)
| Class (negated : bool) (ranges : list (ascii * ascii)).   (* [[seq]], [[!seq]] *)

(** The text up to the first [']'], and what follows it. *)
Fixpoint until_close (s : string) : option (string * string) :=
  match s with
  | EmptyString => None
  | String c s' =>
      if Ascii.eqb c "]" then Some (EmptyString, s')
      else match until_close s' with
           | Some (a, b) => Some (String c a, b)
           | None => None
           end
  end.

(** What follows a ['[']: an optional ['!'], then a [']'] standing first
    belongs to the class, then everything up to the closing [']'].
    [None] when the bracket is never closed. *)
Definition scan_class (s : string) : option (bool * string * string) :=
  let '(neg, s1) :=
    match s with
    | String c s' => if Ascii.eqb c "!" then (true, s') else (false, s)
    | EmptyString => (false, s)
    end in
  match s1 with
  | String c s2 =>
      if Ascii.eqb c "]" then
        match until_close s2 with
        | Some (a, b) => Some (neg, String c a, b)
        | None => None
        end
      else
        match until_close s1 with
        | Some (a, b) => Some (neg, a, b)
        | None => None
        end
  | EmptyString => None
  end.

(** The members of a class: [lo-hi] is a range, any other character
    stands for itself. *)
Fixpoint class_ranges (s : string) : list (ascii * ascii) :=
  match s with
  | EmptyString => []
  | String lo (String sep (String hi s') as s1) =>
      if Ascii.eqb sep "-" then (lo, hi) :: class_ranges s'
      else (lo, lo) :: class_ranges s1
  | String c s' => (c, c) :: class_ranges s'
  end.

Definition in_range (c : ascii) (r : ascii * ascii) : bool :=
  ((N_of_ascii (fst r) <=? N_of_ascii c)
   && (N_of_ascii c <=? N_of_ascii (snd r)))%N.

(** [fnmatch.translate]: the pattern as a list of tokens. Every token
    consumes at least one character, so [String.length pat] is enough
    fuel. An unclosed ['['] is an ordinary character. *)
Fixpoint translate (fuel : nat) (pat : string) : list token :=
  match fuel, pat with
  | S n, String c rest =>
      if Ascii.eqb c "*" then Star :: translate n rest
      else if Ascii.eqb c "?" then AnyChar :: translate n rest
      else if Ascii.eqb c "[" then
        match scan_class rest with
        | Some (neg, stuff, after) =>
            Class neg (class_ranges stuff) :: translate n after
        | None => Lit c :: translate n rest
        end
      else Lit c :: translate n rest
  | _, _ => []
  end.

(** A full match of the name against the tokens. *)
Fixpoint matches (ts : list token) (s : string) : bool :=
  match ts with
  | [] => match s with EmptyString => true | _ => false end
  | Star :: ts' =>
      (fix skip (s : string) : bool :=
         matches ts' s ||
         match s with
         | EmptyString => false
         | String _ s' => skip s'
         end) s
  | AnyChar :: ts' =>
      match s with
      | String _ s' => matches ts' s'
      | EmptyString => false
      end
  | Lit c :: ts' =>
      match s with
      | String c' s' => Ascii.eqb c c' && matches ts' s'
      | EmptyString => false
      end
  | Class neg rs :: ts' =>
      match s with
      | String c' s' =>
          xorb neg (existsb (in_range c') rs) && matches ts' s'
      | EmptyString => false
      end
  end.

(** [fnmatch.fnmatchcase(name, pat)]. *)
Definition fnmatch (name pat : string) : bool :=
  matches (translate (String.length pat) pat) name.

(** A pattern in which no character has a special meaning for [glob]. *)
Definition literal (p : string) : bool :=
  negb (str_has_char "*" p || str_has_char "?" p || str_has_char "[" p
        || str_has_char "/" p).

(** None of the three characters that [translate] treats specially. *)
Definition plain (p : string) : Prop :=
  str_has_char "*" p = false /\ str_has_char "?" p = false
  /\ str_has_char "[" p = false.

End Glob.

(** ** The world: file system, logger, data source *)

(** What a directory holds under a name: a regular file with its bytes, or a
    sub-directory (whose own contents the model does not track). *)
Inductive node :=
| File (content : string)
| SubDir.

(** What is found at a directory path. A path that is not in the file-system
    map does not exist but its parent does (so [mkdir] can create it when
    the system accepts its name). *)
Inductive path_state :=
| Orphan                                     (* absent, and so is its parent *)
| RegularFile                                (* the path names a regular file *)
| Directory (entries : gmap string node).

Inductive exn :=
| FileNotFoundError
| FileExistsError
| IsADirectoryError
| ValueError
| OSError                                    (* errno [ENAMETOOLONG] *)
| BadSpreadsheet                             (* [pd.read_excel] rejects the bytes *)
| SourceError.                               (* the data source raised *)

Inductive level := INFO | WARNING | ERROR.

(** The log messages of the module, by their format string. *)
Inductive message :=
| MsgReadCache (dir name : string)           (* line 44 *)
| MsgCacheLoaded                             (* line 46 *)
| MsgReadCacheFailed (e : exn)               (* line 49 *)
| MsgQueryStart (start_time end_time : string)   (* line 54 *)
| MsgCached (dir name : string)              (* line 61 *)
| MsgSaveFailed (e : exn)                    (* line 63 *)
| MsgEmptyResult                             (* line 67 *)
| MsgQueryFailed (e : exn)                   (* line 71 *)
| MsgNoCacheDir                              (* line 128 *)
| MsgDeleted (dir name : string)             (* line 140 *)
| MsgDeleteFailed (dir name : string) (e : exn).   (* line 142 *)

(** The I/O a call performs, in order. A write or an unlink is recorded
    when it is attempted. *)
Inductive event :=
| EvMkdir (dir : string)
| EvRead (dir name : string)
| EvWrite (dir name : string)
| EvUnlink (dir name : string)
| EvSource (start_time end_time : string)
| EvLog (l : level) (m : message).

(** What the data source gives back: it raises, returns [None], or a table. *)
Inductive source_result (Table : Type) :=
| SrcRaises
| SrcNone
| SrcTable (t : Table).
Arguments SrcRaises {Table}.
Arguments SrcNone {Table}.
Arguments SrcTable {Table} t.

Record world (W : Type) := World {
  files : gmap string path_state;
  source_state : W
}.
Arguments World {W} files source_state.
Arguments files {W} w.
Arguments source_state {W} w.

Inductive outcome (A : Type) :=
| Ok (a : A)
| Raise (e : exn).
Arguments Ok {A} a.
Arguments Raise {A} e.

(** ** The monad of I/O computations *)

Section Monad.

Context {W : Type}.

Definition M (A : Type) : Type :=
  world W -> outcome A * world W * list event.

Definition ret {A} (a : A) : M A := fun w => (Ok a, w, []).

Definition bind {A B} (m : M A) (f : A -> M B) : M B :=
  fun w =>
    match m w with
    | (Ok a, w1, t1) => let '(r, w2, t2) := f a w1 in (r, w2, (t1 ++ t2)%list)
    | (Raise e, w1, t1) => (Raise e, w1, t1)
    end.

Definition raise {A} (e : exn) : M A := fun w => (Raise e, w, []).

(** [try: m  except Exception as e: handler e]. *)
Definition try_except {A} (m : M A) (handler : exn -> M A) : M A :=
  fun w =>
    match m w with
    | (Ok a, w1, t1) => (Ok a, w1, t1)
    | (Raise e, w1, t1) =>
        let '(r, w2, t2) := handler e w1 in (r, w2, (t1 ++ t2)%list)
    end.

Definition emit (e : event) : M unit := fun w => (Ok tt, w, [e]).

Definition get_files : M (gmap string path_state) :=
  fun w => (Ok (files w), w, []).

Definition put_files (fs : gmap string path_state) : M unit :=
  fun w => (Ok tt, World fs (source_state w), []).

(** [for x in l: body x]. *)
Fixpoint for_each {A} (l : list A) (body : A -> M unit) : M unit :=
  match l with
  | [] => ret tt
  | x :: l' => bind (body x) (fun _ => for_each l' body)
  end.

End Monad.

(** [x ← m; k] and [m ;; k] are stdpp's notations for [bind]. *)
#[global] Instance M_ret {W} : MRet (M (W:=W)) := @ret W.
#[global] Instance M_bind {W} : MBind (M (W:=W)) :=
  fun A B f m => bind m f.

(** Result, final world and events of a run. *)
Definition result {W A} (r : outcome A * world W * list event) : outcome A :=
  fst (fst r).
Definition final {W A} (r : outcome A * world W * list event) : world W :=
  snd (fst r).
Definition events {W A} (r : outcome A * world W * list event) : list event :=
  snd r.

(** The entries of the directory at [dir]; none when it is not a directory. *)
Definition entries_at (fs : gmap string path_state) (dir : string)
  : gmap string node :=
  match fs !! dir with
  | Some (Directory es) => es
  | _ => ∅
  end.

(** ** Path names that the operating system refuses

    [os.stat] and [os.mkdir] are handed the text of the [Path]: its
    segments without the empty ones and the [.] ones, joined by [/] after
    the root, and [.] for a path without root and segments. Python raises
    [ValueError] for a text that holds a NUL character, before any system
    call. The kernel answers [ENAMETOOLONG] for a text of [PATH_MAX] bytes
    or more (the count includes the closing zero byte), and for a segment
    of more than [NAME_MAX] bytes when the walk along the path gets to
    it. The limits are those of Linux and its usual file systems. *)

Definition NAME_MAX : nat := 255.
Definition PATH_MAX : nat := 4096.

(** The length of [os.fsencode(s)]: UTF-8, one byte for a code point below
    128 and two for the others up to 255. *)
Fixpoint fs_bytes (s : string) : nat :=
  match s with
  | EmptyString => 0
  | String c s' => (if (N_of_ascii c <? 128)%N then 1 else 2) + fs_bytes s'
  end.

(** [s.split('/')]. *)
Fixpoint split_slash (s : string) : list string :=
  match s with
  | EmptyString => [EmptyString]
  | String c s' =>
      if Ascii.eqb c "/" then EmptyString :: split_slash s'
      else match split_slash s' with
           | x :: xs => String c x :: xs
           | [] => [String c EmptyString]
           end
  end.

(** The segments that [Path(p)] keeps. *)
Definition path_parts (p : string) : list string :=
  List.filter (fun x => negb (String.eqb x "") && negb (String.eqb x "."))
    (split_slash p).

(** The bytes of the root of [Path(p)]: none for a relative path, [//] for
    exactly two leading slashes, [/] otherwise. *)
Definition root_bytes (p : string) : nat :=
  match p with
  | String "/" (String "/" (String "/" _)) => 1
  | String "/" (String "/" _) => 2
  | String "/" _ => 1
  | _ => 0
  end.

(** The bytes of [str(Path(p))], and of [str(Path(p) / name)] for a name
    of one segment when [child] is [[name]]. *)
Definition text_bytes (p : string) (child : list string) : nat :=
  match (path_parts p ++ child)%list with
  | [] => Nat.max (root_bytes p) 1
  | parts =>
      root_bytes p + list_sum (map fs_bytes parts) + (length parts - 1)
  end.

Definition has_nul (p : string) : bool := str_has_char "000"%char p.

Definition too_long (segment : string) : bool :=
  (NAME_MAX <? fs_bytes segment)%nat.

(** [ENAMETOOLONG] for a path that is not there. When its parent is there
    the walk gets to every segment; when its parent is missing the walk
    ends at the parent, and the last segment is never looked at. *)
Definition path_refused (parent_there : bool) (p : string) : bool :=
  (PATH_MAX <=? text_bytes p [])%nat
  || existsb too_long
       (if parent_there then path_parts p else removelast (path_parts p)).

(** [ENAMETOOLONG] for a name of one segment that is not in the directory
    at [dir]. *)
Definition child_refused (dir name : string) : bool :=
  (PATH_MAX <=? text_bytes dir [name])%nat || too_long name.

(** The artifact path [dir/name] is one the system accepts. *)
Definition path_fits (dir name : string) : bool :=
  negb (child_refused dir name).

(** ** File-system, logger and pandas primitives *)

Section Primitives.

Context {W : Type}.

Definition logger_info (m : message) : M (W:=W) unit := emit (EvLog INFO m).
Definition logger_warning (m : message) : M (W:=W) unit := emit (EvLog WARNING m).
Definition logger_error (m : message) : M (W:=W) unit := emit (EvLog ERROR m).

(** [os.stat] and [os.mkdir] on a path that is not there, up to the
    point where the name alone decides: [ValueError] for a NUL character,
    [OSError] for a name that is too long, and otherwise [absent]. *)
Definition lookup_absent {A} (parent_there : bool) (p : string)
    (absent : M (W:=W) A) : M (W:=W) A :=
  if has_nul p then raise ValueError
  else if path_refused parent_there p then raise OSError
  else absent.

(** [Path(dir).mkdir(exist_ok=True)]: [parents] is left at [False], so a
    missing parent raises; an existing directory is accepted, an existing
    regular file is not. *)
Definition Path_mkdir (dir : string) : M (W:=W) unit :=
  fs ← get_files;
  match fs !! dir with
  | None =>
      lookup_absent true dir
        (emit (EvMkdir dir) ;; put_files (<[dir := Directory ∅]> fs))
  | Some (Directory _) => ret tt
  | Some RegularFile => raise FileExistsError
  | Some Orphan => lookup_absent false dir (raise FileNotFoundError)
  end.

(** [Path(dir).exists()]: [stat] with [ENOENT] and [ValueError] turned
    into [False]; any other [OSError] is raised again. *)
Definition Path_exists (dir : string) : M (W:=W) bool :=
  fs ← get_files;
  match fs !! dir with
  | Some (Directory _) | Some RegularFile => ret true
  | Some Orphan =>
      try_except (lookup_absent false dir (ret false))
        (fun e => match e with ValueError => ret false | _ => raise e end)
  | None =>
      try_except (lookup_absent true dir (ret false))
        (fun e => match e with ValueError => ret false | _ => raise e end)
  end.

(** [(Path(dir) / name).exists()] for a name of one segment, in a
    directory that is there. *)
Definition child_exists (dir name : string) : M (W:=W) bool :=
  fs ← get_files;
  match entries_at fs dir !! name with
  | Some _ => ret true
  | None => if child_refused dir name then raise OSError else ret false
  end.

(** [(Path(dir) / name).unlink()]: only a regular file can be unlinked. *)
Definition Path_unlink (dir name : string) : M (W:=W) unit :=
  emit (EvUnlink dir name) ;;
  fs ← get_files;
  match fs !! dir with
  | Some (Directory es) =>
      match es !! name with
      | Some (File _) => put_files (<[dir := Directory (delete name es)]> fs)
      | Some SubDir => raise IsADirectoryError
      | None => raise FileNotFoundError
      end
  | _ => raise FileNotFoundError
  end.

(** [list(Path(dir).glob(pat))] for a pattern of one segment, as the
    entry names. A segment that holds [**] without being [**] is rejected
    with [ValueError] (pathlib up to Python 3.12); a path that is not a
    directory has no matches. *)
Definition Path_glob (dir pat : string) : M (W:=W) (list string) :=
  if str_contains "**" pat then raise ValueError
  else
    fs ← get_files;
    ret (List.filter (fun name => Glob.fnmatch name pat)
           (map fst (map_to_list (entries_at fs dir)))).

End Primitives.

(** ** The cached range query and the cache administration *)

Section FileTest.

(** The collaborators: pandas' tables with their spreadsheet codec, and
    the data source behind [query_data_from_source], which the module
    leaves to be supplied (its stand-in draws random rows, so it carries a
    state of its own). *)
Context {Table W : Type}.
Variable df_empty : Table -> bool.                      (* [df.empty] *)
Variable to_excel : Table -> string.                    (* bytes of the sheet *)
Variable read_excel : string -> option Table.           (* [None]: rejected *)
Variable query_data_from_source :
  string -> string -> W -> source_result Table * W.

Local Abbreviation M := (M (W:=W)).

(** [pd.read_excel(Path(dir) / name)]. *)
Definition pd_read_excel (dir name : string) : M Table :=
  emit (EvRead dir name) ;;
  fs ← get_files;
  match entries_at fs dir !! name with
  | Some (File bytes) =>
      match read_excel bytes with
      | Some df => ret df
      | None => raise BadSpreadsheet
      end
  | Some SubDir => raise IsADirectoryError
  | None => raise FileNotFoundError
  end.

(** [df.to_excel(Path(dir) / name, index=False)]: creates the file or
    replaces its bytes; a directory in its place makes the write fail. *)
Definition df_to_excel (df : Table) (dir name : string) : M unit :=
  emit (EvWrite dir name) ;;
  fs ← get_files;
  match fs !! dir with
  | Some (Directory es) =>
      match es !! name with
      | Some SubDir => raise IsADirectoryError
      | _ => put_files (<[dir := Directory (<[name := File (to_excel df)]> es)]> fs)
      end
  | _ => raise FileNotFoundError
  end.

(** The call [query_data_from_source(start_time, end_time)]. *)
Definition call_source (start_time end_time : string) : M (option Table) :=
  emit (EvSource start_time end_time) ;;
  ((fun w =>
      match query_data_from_source start_time end_time (source_state w) with
      | (SrcRaises, s) => (Raise SourceError, World (files w) s, [])
      | (SrcNone, s) => (Ok None, World (files w) s, [])
      | (SrcTable t, s) => (Ok (Some t), World (files w) s, [])
      end) : M (option Table)).

(** The first [try] of [query_data_with_cache] (lines 43-50): the cached
    table, or [None] to fall through to the query after logging why. *)
Definition read_cache (cache_dir filename : string) : M (option Table) :=
  try_except
    (logger_info (MsgReadCache cache_dir filename) ;;
     df ← pd_read_excel cache_dir filename;
     logger_info MsgCacheLoaded ;;
     ret (Some df))
    (fun e => logger_error (MsgReadCacheFailed e) ;; ret None).

(** What [read_cache] makes of the node found under the file name: the
    cached table, or the exception that is logged. *)
Definition cached (nd : node) : Table + exn :=
  match nd with
  | File bytes =>
      match read_excel bytes with
      | Some df => inl df
      | None => inr BadSpreadsheet
      end
  | SubDir => inr IsADirectoryError
  end.

(** The second [try] of [query_data_with_cache] (lines 53-72): ask the
    source, store a non-empty answer, return it. *)
Definition query_and_cache
    (start_time end_time cache_dir filename : string) : M (option Table) :=
  try_except
    (logger_info (MsgQueryStart start_time end_time) ;;
     df ← call_source start_time end_time;
     match df with
     | Some t =>
         if negb (df_empty t) then
           try_except
             (df_to_excel t cache_dir filename ;;
              logger_info (MsgCached cache_dir filename))
             (fun e => logger_error (MsgSaveFailed e)) ;;
           ret (Some t)
         else logger_warning MsgEmptyResult ;; ret None
     | None => logger_warning MsgEmptyResult ;; ret None
     end)
    (fun e => logger_error (MsgQueryFailed e) ;; ret None).

(** [query_data_with_cache] (lines 12-72). *)
Definition query_data_with_cache
    (start_time end_time cache_dir : string) (force_refresh : bool)
  : M (option Table) :=
  Path_mkdir cache_dir ;;
  let filename := cache_filename start_time end_time in
  present ← child_exists cache_dir filename;
  cached ← (if present && negb force_refresh
            then read_cache cache_dir filename
            else ret None);
  match cached with
  | Some df => ret (Some df)
  | None => query_and_cache start_time end_time cache_dir filename
  end.

(** [clear_cache] (lines 118-142). [if pattern:] is false for [None] and
    for the empty string. *)
Definition clear_cache (cache_dir : string) (pattern : option string)
  : M unit :=
  there ← Path_exists cache_dir;
  if negb there then logger_info MsgNoCacheDir
  else
    files_to_delete ←
      match pattern with
      | Some (String c p) => Path_glob cache_dir ("*" +:+ String c p +:+ "*")
      | _ => Path_glob cache_dir "*.xlsx"
      end;
    for_each files_to_delete (fun name =>
      try_except
        (Path_unlink cache_dir name ;;
         logger_info (MsgDeleted cache_dir name))
        (fun e => logger_error (MsgDeleteFailed cache_dir name e))).

(** [list_cache_files] (lines 145-159). *)
Definition list_cache_files (cache_dir : string) : M (list string) :=
  there ← Path_exists cache_dir;
  if negb there then ret []
  else Path_glob cache_dir "*.xlsx".

End FileTest.

(** ** Reading a trace of events *)

Definition is_source_call (e : event) : bool :=
  match e with EvSource _ _ => true | _ => false end.
Definition is_write (e : event) : bool :=
  match e with EvWrite _ _ => true | _ => false end.
Definition is_unlink (e : event) : bool :=
  match e with EvUnlink _ _ => true | _ => false end.

Definition count_events (p : event -> bool) (t : list event) : nat :=
  length (List.filter p t).

(** [mkdir] succeeds: the path is a directory already, or is absent with its
    parent present and has a name that the system accepts. *)
Definition can_mkdir (fs : gmap string path_state) (dir : string) : bool :=
  match fs !! dir with
  | None => negb (has_nul dir) && negb (path_refused true dir)
  | Some (Directory _) => true
  | _ => false
  end.

(** The exception of [mkdir] when it fails. *)
Definition mkdir_error (fs : gmap string path_state) (dir : string) : exn :=
  match fs !! dir with
  | Some RegularFile => FileExistsError
  | Some Orphan =>
      if has_nul dir then ValueError
      else if path_refused false dir then OSError
      else FileNotFoundError
  | _ => if has_nul dir then ValueError else OSError
  end.

(** [exists] raises: the path is not there and its name is too long. *)
Definition exists_raises (fs : gmap string path_state) (dir : string) : bool :=
  match fs !! dir with
  | None => negb (has_nul dir) && path_refused true dir
  | Some Orphan => negb (has_nul dir) && path_refused false dir
  | _ => false
  end.

(** The world once [mkdir] has run, and the event it leaves, when it
    succeeds. *)
Definition made_dir {W} (dir : string) (w : world W) : world W :=
  match files w !! dir with
  | None => World (<[dir := Directory ∅]> (files w)) (source_state w)
  | _ => w
  end.

Definition mkdir_events {W} (dir : string) (w : world W) : list event :=
  match files w !! dir with
  | None => [EvMkdir dir]
  | _ => []
  end.

(** The glob that [clear_cache] hands to [Path.glob] (lines 132-135). *)
Definition glob_of (pattern : option string) : string :=
  match pattern with
  | Some (String c p) => "*" +:+ String c p +:+ "*"
  | _ => "*.xlsx"
  end.

(** The entry names of a directory that a glob selects. *)
Definition names_matching (pat : string) (es : gmap string node) : list string :=
  List.filter (fun name => Glob.fnmatch name pat) (map fst (map_to_list es)).

(** A directory after one [unlink], and after the loop of lines 137-142
    over a list of names; and the events that the loop leaves. *)
Definition unlink_one (es : gmap string node) (name : string) : gmap string node :=
  match es !! name with
  | Some (File _) => delete name es
  | _ => es
  end.

Definition unlinked (names : list string) (es : gmap string node)
  : gmap string node :=
  foldl unlink_one es names.

Fixpoint unlink_trace (dir : string) (names : list string)
    (es : gmap string node) : list event :=
  match names with
  | [] => []
  | name :: rest =>
      EvUnlink dir name
      :: EvLog (match es !! name with Some (File _) => INFO | _ => ERROR end)
               (match es !! name with
                | Some (File _) => MsgDeleted dir name
                | Some SubDir => MsgDeleteFailed dir name IsADirectoryError
                | None => MsgDeleteFailed dir name FileNotFoundError
                end)
      :: unlink_trace dir rest (unlink_one es name)
  end.

(** No pattern, or one in which no character is special for [glob]. *)
Definition plain_pattern (pattern : option string) : bool :=
  match pattern with
  | Some p => Glob.literal p
  | None => true
  end.

(** What [query_data_with_cache] hands back for an answer of the source
    (lines 57-72): a non-empty table, and [None] for anything else. *)
Definition returned {Table} (df_empty : Table -> bool)
    (r : source_result Table) : option Table :=
  match r with
  | SrcTable t => if df_empty t then None else Some t
  | _ => None
  end.

(** ** The stand-in data source (lines 75-115)

    [pd.date_range] is a parameter (its dates, or [None] when it raises on
    what it cannot parse); the random module is its generator state with
    [_randbelow], from which [randint] and [choice] are built as in the
    standard library. The stand-in logs on its own account, so it carries
    its own trace. *)

Record frame (D : Type) := Frame {
  col_date : list D;
  col_value : list Z;
  col_category : list string
}.
Arguments Frame {D} col_date col_value col_category.
Arguments col_date {D} f.
Arguments col_value {D} f.
Arguments col_category {D} f.

(** [df.empty] of a frame with its three columns: no rows. *)
Definition frame_empty {D} (df : frame D) : bool :=
  match col_date df with
  | [] => true
  | _ => false
  end.

(** The log line of line 114, with the shape it prints. *)
Inductive source_event :=
| SrcLogged (rows columns : nat).

Section Source.

Context {D R : Type}.
Variable date_range : string -> string -> option (list D).
Variable randbelow : Z -> R -> Z * R.

(** [random.randint(a, b)]: [a + _randbelow(b - a + 1)], and [ValueError]
    ([None]) for an empty range. *)
Definition randint (a b : Z) (s : R) : option Z * R :=
  if (0 <? b - a + 1)%Z then
    let '(x, s') := randbelow (b - a + 1)%Z s in (Some (a + x)%Z, s')
  else (None, s).

(** [random.choice(seq)]: [seq[_randbelow(len(seq))]], and [IndexError]
    ([None]) for an empty sequence. *)
Definition choice {A} (seq : list A) (s : R) : option A * R :=
  match seq with
  | [] => (None, s)
  | _ =>
      let '(i, s') := randbelow (Z.of_nat (length seq)) s in
      (seq !! Z.to_nat i, s')
  end.

(** [[draw() for _ in range(n)]]. *)
Fixpoint comprehension {A} (draw : R -> option A * R) (n : nat) (s : R)
  : option (list A) * R :=
  match n with
  | 0 => (Some [], s)
  | S n' =>
      match draw s with
      | (Some x, s1) =>
          match comprehension draw n' s1 with
          | (Some xs, s2) => (Some (x :: xs), s2)
          | (None, s2) => (None, s2)
          end
      | (None, s1) => (None, s1)
      end
  end.

(** [query_data_from_source] (lines 75-115): the values are drawn first,
    then the categories. *)
Definition query_data_from_source (start_time end_time : string) (s : R)
  : source_result (frame D) * R * list source_event :=
  match date_range start_time end_time with
  | None => (SrcRaises, s, [])
  | Some dates =>
      match comprehension (randint 100 1000) (length dates) s with
      | (Some values, s1) =>
          match comprehension (choice ["A"; "B"; "C"]) (length dates) s1 with
          | (Some categories, s2) =>
              (SrcTable (Frame dates values categories), s2,
               [SrcLogged (length dates) 3])
          | (None, s2) => (SrcRaises, s2, [])
          end
      | (None, s1) => (SrcRaises, s1, [])
      end
  end.

(** The stand-in as the collaborator of [query_data_with_cache]. *)
Definition stand_in_source (start_time end_time : string) (s : R)
  : source_result (frame D) * R :=
  fst (query_data_from_source start_time end_time s).

End Source.

(** ** The example run of the module (lines 163-184)

    What the script prints, in order; the log goes to its own stream. *)

Inductive printed (Table : Type) :=
| PrintFirst                                   (* line 169 *)
| PrintSecond                                  (* line 174 *)
| PrintForced                                  (* line 179 *)
| PrintShape (df : option Table)               (* lines 171, 176, 181 *)
| PrintFiles (names : list string).            (* line 184 *)
Arguments PrintFirst {Table}.
Arguments PrintSecond {Table}.
Arguments PrintForced {Table}.
Arguments PrintShape {Table} df.
Arguments PrintFiles {Table} names.

Section Main.

Context {Table W : Type}.
Variable df_empty : Table -> bool.
Variable to_excel : Table -> string.
Variable read_excel : string -> option Table.
Variable source : string -> string -> W -> source_result Table * W.

Definition main : M (W:=W) (list (printed Table)) :=
  let start_time := "2024-01-01" in
  let end_time := "2024-01-10" in
  df1 ← query_data_with_cache df_empty to_excel read_excel source
          start_time end_time "./cache" false;
  df2 ← query_data_with_cache df_empty to_excel read_excel source
          start_time end_time "./cache" false;
  df3 ← query_data_with_cache df_empty to_excel read_excel source
          start_time end_time "./cache" true;
  names ← list_cache_files "./cache";
  ret [PrintFirst; PrintShape df1; PrintSecond; PrintShape df2;
       PrintForced; PrintShape df3; PrintFiles names].

End Main.

(** ** A small instance to run the model on

    A table is the text of its single cell; the sheet's bytes are that text
    behind the two-byte signature of a spreadsheet archive; the data source
    replays a script of results, one per call. *)

Module Demo.

Definition Table := string.
Definition df_empty (t : Table) : bool := String.eqb t "".
Definition to_excel (t : Table) : string := "PK" +:+ t.
Definition read_excel (bytes : string) : option Table :=
  match bytes with
  | String "P" (String "K" t) => Some t
  | _ => None
  end.

Definition script := list (source_result Table).
Definition source (start_time end_time : string) (s : script)
  : source_result Table * script :=
  match s with
  | [] => (SrcRaises, [])
  | r :: s' => (r, s')
  end.

Definition query := query_data_with_cache df_empty to_excel read_excel source.
Definition clear := clear_cache (W:=script).
Definition ls := list_cache_files (W:=script).

Definition dir_with (es : list (string * node)) : gmap string path_state :=
  {[ "./cache" := Directory (list_to_map es) ]}.

(** Worlds for the range 2024-01-01 to 2024-01-10: a valid artifact, an
    artifact that is not a sheet, no cache directory yet, a directory with
    other entries beside the artifact, and a cache path under a directory
    that does not exist. *)
Definition fname : string := "2024-01-01_2024-01-10.xlsx".
Definition warm : world script :=
  World (dir_with [(fname, File "PKold")]) [SrcTable "rows"].
Definition corrupt : world script :=
  World (dir_with [(fname, File "junk")]) [SrcTable "rows"].
Definition cold : world script := World ∅ [SrcTable "rows"].
Definition failing : world script := World ∅ [SrcRaises].
Definition mixed : world script :=
  World (dir_with [(fname, File "PKold"); ("notes-2024-01.txt", File "x");
                   ("other.xlsx", File "PKy"); ("2024-01.xlsx", SubDir)]) [].
(** A start time of 256 letters, and a world with an empty cache
    directory. *)
Definition long_time : string :=
  string_of_list_ascii (repeat "a"%char 256).

Definition orphan : world script :=
  World {[ "./missing/cache" := Orphan ]} [SrcTable "rows"].

(** Two spellings of one day, which sanitize to the same text. *)
Definition slashed : string := "2024/01/01".
Definition dotted : string := "2024:01:01".

(** The artifact path taken by a directory, and a source with two answers. *)
Definition blocked : world script :=
  World (dir_with [(fname, SubDir)]) [SrcTable "rows"; SrcTable "more"].
Definition twice : world script :=
  World ∅ [SrcTable "rows"; SrcTable "more"].
Definition empty_then_rows : world script :=
  World ∅ [SrcTable ""; SrcTable "rows"].

End Demo.

(** The stand-in source on a calendar of day numbers, with a generator
    that counts. *)
Module DemoSource.

Definition date_range (start_time end_time : string) : option (list nat) :=
  match String.length start_time, String.length end_time with
  | 0, _ | _, 0 => None
  | a, b => Some (seq a (S b - a))
  end.

Definition randbelow (n : Z) (s : Z) : Z * Z := ((s mod n)%Z, (s + 7)%Z).

Definition source := stand_in_source date_range randbelow.

(** The cached query over it, with a sheet codec that never reads back, and
    a world without a cache. *)
Definition query :=
  query_data_with_cache frame_empty (fun _ : frame nat => "PK")
    (fun _ => None) source.
Definition fresh : world Z := World ∅ 5%Z.

End DemoSource.

(** ** The model on concrete inputs *)

Example safe_time_ex : safe_time "a/b:c" = "abc".
Proof. reflexivity. Qed.

Example cache_filename_ex :
  cache_filename "2024-01-01" "2024-01-10" = "2024-01-01_2024-01-10.xlsx".
Proof. reflexivity. Qed.

Example fnmatch_xlsx : Glob.fnmatch "2024-01-01_2024-01-10.xlsx" "*.xlsx" = true.
Proof. reflexivity. Qed.

Example fnmatch_case : Glob.fnmatch "x.XLSX" "*.xlsx" = false.
Proof. reflexivity. Qed.

Example fnmatch_class : Glob.fnmatch "a[b]c.txt" "*a[b]c*" = false.
Proof. reflexivity. Qed.

Example fnmatch_class_hit : Glob.fnmatch "abc.xlsx" "*a[b]c*" = true.
Proof. reflexivity. Qed.

Example fnmatch_any : Glob.fnmatch "abc.xlsx" "*?*" = true.
Proof. reflexivity. Qed.

Example text_bytes_ex :
  text_bytes "./cache" ["2024-01-01_2024-01-10.xlsx"] = 32
  /\ text_bytes "a//b/./c/" [] = 5 /\ text_bytes "" [] = 1
  /\ text_bytes "//a" [] = 3 /\ text_bytes "///a" [] = 2.
Proof. vm_compute. repeat split. Qed.

Example name_limit :
  child_refused "./cache" (string_of_list_ascii (repeat "a"%char 255)) = false
  /\ child_refused "./cache" (string_of_list_ascii (repeat "a"%char 256)) = true
  /\ child_refused "./cache"
       (string_of_list_ascii (repeat (ascii_of_nat 233) 128)) = true.
Proof. vm_compute. repeat split. Qed.

Example missing_parent_hides_long_name :
  path_refused false ("missing/" +:+ Demo.long_time) = false
  /\ path_refused false (Demo.long_time +:+ "/cache") = true
  /\ path_refused true Demo.long_time = true.
Proof. vm_compute. repeat split. Qed.

Example long_file_name_raises :
  Demo.query Demo.long_time "2024-01-10" "./cache" false Demo.cold
    = (Raise OSError, World {["./cache" := Directory ∅]} [SrcTable "rows"],
       [EvMkdir "./cache"]).
Proof. vm_compute. reflexivity. Qed.

Example long_directory_name_raises :
  result (Demo.ls Demo.long_time Demo.cold) = Raise OSError
  /\ result (Demo.clear Demo.long_time None Demo.cold) = Raise OSError
  /\ result (Demo.query "2024-01-01" "2024-01-10" Demo.long_time false Demo.cold)
     = Raise OSError.
Proof. vm_compute. repeat split. Qed.

Example nul_in_directory_name :
  result (Demo.ls (String "000" "x") Demo.cold) = Ok []
  /\ result (Demo.query "2024-01-01" "2024-01-10" (String "000" "x") false
               Demo.cold) = Raise ValueError.
Proof. vm_compute. repeat split. Qed.

Example first_query_fills_cache :
  let r := Demo.query "2024-01-01" "2024-01-10" "./cache" false Demo.cold in
  result r = Ok (Some "rows")
  /\ entries_at (files (final r)) "./cache" !! Demo.fname = Some (File "PKrows")
  /\ events r = [EvMkdir "./cache";
                 EvLog INFO (MsgQueryStart "2024-01-01" "2024-01-10");
                 EvSource "2024-01-01" "2024-01-10";
                 EvWrite "./cache" Demo.fname;
                 EvLog INFO (MsgCached "./cache" Demo.fname)].
Proof. vm_compute. repeat split. Qed.

Example list_after_clear :
  let r := Demo.clear "./cache" (Some "2024-01") Demo.mixed in
  result (Demo.ls "./cache" Demo.mixed)
    = Ok ["other.xlsx"; Demo.fname; "2024-01.xlsx"]
  /\ result (Demo.ls "./cache" (final r)) = Ok ["other.xlsx"; "2024-01.xlsx"]
  /\ entries_at (files (final r)) "./cache" !! "notes-2024-01.txt" = None.
Proof. vm_compute. repeat split. Qed.

Example clear_double_star_raises :
  result (Demo.clear "./cache" (Some "*") Demo.mixed) = Raise ValueError.
Proof. reflexivity. Qed.

(** ** Facts about strings *)

Section StringFacts.

Lemma append_cons (x : ascii) (a b : string) :
  String x a +:+ b = String x (a +:+ b).
Proof. reflexivity. Qed.

Lemma append_nil (b : string) : "" +:+ b = b.
Proof. reflexivity. Qed.

Lemma append_assoc (a b c : string) : (a +:+ b) +:+ c = a +:+ (b +:+ c).
Proof.
  induction a as [|x a IH]; [reflexivity |].
  rewrite !append_cons. now rewrite IH.
Qed.

Lemma has_char_append (c : ascii) (a b : string) :
  str_has_char c (a +:+ b) = str_has_char c a || str_has_char c b.
Proof.
  induction a as [|x a IH]; [reflexivity |].
  rewrite append_cons. cbn [str_has_char].
  rewrite IH. now rewrite orb_assoc.
Qed.

Lemma prefix_true_iff (p s : string) :
  String.prefix p s = true <-> exists b, s = p +:+ b.
Proof.
  revert s. induction p as [|x p IH]; intros s.
  - split; [intros _; now exists s |]. now destruct s.
  - destruct s as [|y s]; cbn [String.prefix].
    + split; [discriminate | intros [b Hb]; discriminate].
    + destruct (ascii_dec x y) as [Hxy|Hxy].
      * rewrite IH. split; intros [b Hb]; exists b;
          rewrite append_cons in *; congruence.
      * split; [discriminate |].
        intros [b Hb]. rewrite append_cons in Hb. congruence.
Qed.

(** [str_contains] is the substring relation. *)
Lemma contains_true_iff (p s : string) :
  str_contains p s = true <-> exists a b, s = a +:+ p +:+ b.
Proof.
  induction s as [|y s IH]; cbn [str_contains].
  - rewrite orb_false_r, prefix_true_iff. split.
    + intros [b Hb]. now exists "", b.
    + intros [a [b Hab]]. destruct a; [now exists b | discriminate].
  - rewrite orb_true_iff, prefix_true_iff, IH. split.
    + intros [[b Hb] | [a [b Hab]]].
      * now exists "", b.
      * exists (String y a), b. rewrite append_cons. now rewrite Hab.
    + intros [a [b Hab]]. destruct a as [|x a].
      * left. now exists b.
      * right. exists a, b. rewrite append_cons in Hab. congruence.
Qed.

(** [str_endswith] is the suffix relation. *)
Lemma endswith_true_iff (p s : string) :
  str_endswith p s = true <-> exists a, s = a +:+ p.
Proof.
  induction s as [|y s IH]; cbn [str_endswith].
  - rewrite orb_false_r, String.eqb_eq. split.
    + intros ->. now exists "".
    + intros [a Ha]. destruct a; [now rewrite append_nil in Ha | discriminate].
  - rewrite orb_true_iff, String.eqb_eq, IH. split.
    + intros [-> | [a Ha]].
      * now exists "".
      * exists (String y a). rewrite append_cons. now rewrite Ha.
    + intros [a Ha]. destruct a as [|x a].
      * now left.
      * right. exists a. rewrite append_cons in Ha. congruence.
Qed.

End StringFacts.

(** ** The cache key *)

Section CacheKeyFacts.

Lemma keep_char_allow_listed (c : ascii) : keep_char c = allow_listed c.
Proof.
  unfold keep_char, allow_listed. cbn [existsb].
  rewrite orb_false_r, !orb_assoc. reflexivity.
Qed.

(** The comprehension and the join of line 36 delete exactly the
    characters outside the allow-list. *)
Lemma safe_time_deletes (s : string) :
  safe_time s = delete_outside_allow_list s.
Proof.
  unfold safe_time. induction s as [|c s IH]; [reflexivity |].
  cbn [list_ascii_of_string List.filter delete_outside_allow_list].
  rewrite keep_char_allow_listed.
  destruct (allow_listed c); [| exact IH].
  cbn [map]. rewrite <- IH.
  destruct (List.filter keep_char (list_ascii_of_string s)); reflexivity.
Qed.

Lemma deleted_chars_allowed (c : ascii) (s : string) :
  str_has_char c (delete_outside_allow_list s) = true ->
  allow_listed c = true.
Proof.
  induction s as [|x s IH]; cbn [delete_outside_allow_list str_has_char];
    [discriminate |].
  destruct (allow_listed x) eqn:Hx; [| exact IH].
  cbn [str_has_char]. intros [Hc | Hc]%orb_true_iff; [| now apply IH].
  apply Ascii.eqb_eq in Hc. now subst.
Qed.

Lemma filename_chars_allowed (c : ascii) (start_time end_time : string) :
  str_has_char c (cache_filename start_time end_time) = true ->
  allow_listed c = true.
Proof.
  unfold cache_filename. rewrite !has_char_append, !safe_time_deletes.
  cbn [str_has_char]. rewrite !orb_false_r.
  intros H. repeat (apply orb_true_iff in H as [H | H]);
    eauto using deleted_chars_allowed;
    apply Ascii.eqb_eq in H; now subst.
Qed.

End CacheKeyFacts.

(** C6. The file name of a time range is the specification's cache key (each
    of start and end with every character outside the allow-list deleted,
    joined by an underscore) followed by [.xlsx]; no character outside the
    allow-list occurs in it; and for start ["a/b:c"] and end ["d?e"] it is
    ["abc_de.xlsx"], in which none of ['/'], [':'], ['?'] occurs. *)
Theorem cache_key_sanitized (start_time end_time : string) :
  cache_filename start_time end_time
    = spec_cache_key start_time end_time +:+ ".xlsx"
  /\ (forall c, str_has_char c (cache_filename start_time end_time) = true ->
                allow_listed c = true)
  /\ cache_filename "a/b:c" "d?e" = "abc_de.xlsx"
  /\ str_has_char "/" (cache_filename "a/b:c" "d?e") = false
  /\ str_has_char ":" (cache_filename "a/b:c" "d?e") = false
  /\ str_has_char "?" (cache_filename "a/b:c" "d?e") = false.
Proof.
  split; [| split; [| repeat split]].
  - unfold cache_filename, spec_cache_key.
    rewrite !safe_time_deletes, !append_assoc. reflexivity.
  - intros c. apply filename_chars_allowed.
Qed.

(** ** Glob patterns without special characters *)

Section GlobFacts.

Import Glob.

Lemma length_append (a b : string) :
  String.length (a +:+ b) = String.length a + String.length b.
Proof.
  induction a as [|x a IH]; [reflexivity |].
  rewrite append_cons. cbn [String.length]. now rewrite IH.
Qed.

Lemma append_empty_r (a : string) : a +:+ "" = a.
Proof.
  induction a as [|x a IH]; [reflexivity |].
  rewrite append_cons. now rewrite IH.
Qed.

Lemma literal_plain (p : string) : literal p = true -> plain p.
Proof.
  unfold literal, plain. rewrite negb_true_iff, !orb_false_iff. tauto.
Qed.

Lemma plain_cons (c : ascii) (p : string) :
  plain (String c p) ->
  (Ascii.eqb c "*" = false /\ Ascii.eqb c "?" = false
   /\ Ascii.eqb c "[" = false) /\ plain p.
Proof.
  unfold plain. cbn [str_has_char]. rewrite !orb_false_iff.
  rewrite !(Ascii.eqb_sym _ c). tauto.
Qed.

Lemma translate_plain (p rest : string) (n : nat) :
  plain p ->
  translate (String.length p + n) (p +:+ rest)
    = (map Lit (list_ascii_of_string p) ++ translate n rest)%list.
Proof.
  induction p as [|c p IH]; intros Hp; [reflexivity |].
  apply plain_cons in Hp as [(H1 & H2 & H3) Hp].
  rewrite append_cons.
  cbn [String.length Nat.add translate list_ascii_of_string map app].
  rewrite H1, H2, H3. now rewrite IH.
Qed.

Lemma matches_star (ts : list token) (s : string) :
  matches (Star :: ts) s = true
  <-> exists a b, s = a +:+ b /\ matches ts b = true.
Proof.
  induction s as [|y s IH].
  - cbn [matches]. rewrite orb_false_r. split.
    + intros H. now exists "", "".
    + intros (a & b & Hab & Hb). destruct a; [| discriminate].
      rewrite append_nil in Hab. now subst.
  - change (matches (Star :: ts) (String y s))
      with (matches ts (String y s) || matches (Star :: ts) s).
    rewrite orb_true_iff, IH. split.
    + intros [H | (a & b & Hab & Hb)].
      * now exists "", (String y s).
      * exists (String y a), b. rewrite append_cons. now rewrite Hab.
    + intros (a & b & Hab & Hb). destruct a as [|x a].
      * left. rewrite append_nil in Hab. now subst.
      * right. exists a, b. rewrite append_cons in Hab.
        split; [congruence | assumption].
Qed.

Lemma matches_lits (p : string) (ts : list token) (s : string) :
  matches (map Lit (list_ascii_of_string p) ++ ts)%list s = true
  <-> exists b, s = p +:+ b /\ matches ts b = true.
Proof.
  revert s. induction p as [|c p IH]; intros s.
  - cbn [list_ascii_of_string map app]. split.
    + intros H. now exists s.
    + intros (b & Hb & H). rewrite append_nil in Hb. now subst.
  - cbn [list_ascii_of_string map app matches].
    destruct s as [|y s].
    + split; [discriminate | intros (b & Hb & _); discriminate].
    + rewrite andb_true_iff, Ascii.eqb_eq, IH. split.
      * intros (-> & b & Hb & H). exists b. rewrite append_cons.
        split; [congruence | assumption].
      * intros (b & Hb & H). rewrite append_cons in Hb.
        injection Hb as -> ->. eauto.
Qed.

Lemma matches_star_only (s : string) : matches [Star] s = true.
Proof.
  apply matches_star. exists s, "". now rewrite append_empty_r.
Qed.

(** For a pattern without special characters, [*pattern*] selects the
    names that contain the pattern. *)
Lemma fnmatch_contains (p name : string) :
  literal p = true ->
  fnmatch name ("*" +:+ p +:+ "*") = str_contains p name.
Proof.
  intros Hp%literal_plain. apply eq_true_iff_eq.
  unfold fnmatch. rewrite append_cons, append_nil.
  cbn [String.length translate Ascii.eqb Bool.eqb]. 
  rewrite length_append. rewrite (translate_plain p "*" _ Hp).
  cbn [String.length Nat.add translate Ascii.eqb Bool.eqb].
  rewrite matches_star, contains_true_iff. split.
  - intros (a & b & -> & (b' & -> & _)%matches_lits). now exists a, b'.
  - intros (a & b & ->). exists a, (p +:+ b). split; [reflexivity |].
    apply matches_lits. exists b. split; [reflexivity |].
    apply matches_star_only.
Qed.

(** [*.xlsx] selects the names that end in [.xlsx]. *)
Lemma fnmatch_endswith_xlsx (name : string) :
  fnmatch name "*.xlsx" = str_endswith ".xlsx" name.
Proof.
  apply eq_true_iff_eq. unfold fnmatch.
  change (translate (String.length "*.xlsx") "*.xlsx")
    with (Star :: map Lit (list_ascii_of_string ".xlsx") ++ [])%list.
  rewrite matches_star, endswith_true_iff. split.
  - intros (a & b & -> & (b' & -> & H)%matches_lits).
    destruct b'; [| discriminate]. exists a. now rewrite append_empty_r.
  - intros (a & ->). exists a, ".xlsx". split; [reflexivity |].
    apply matches_lits. exists "". now rewrite append_empty_r.
Qed.

Lemma no_double_star_tail (p : string) :
  str_has_char "*" p = false -> str_contains "**" (p +:+ "*") = false.
Proof.
  induction p as [|c p IH]; [reflexivity |].
  cbn [str_has_char]. intros [Hc Hp]%orb_false_iff.
  rewrite append_cons. cbn [str_contains String.prefix].
  destruct (ascii_dec "*" c) as [<-|Hne]; [discriminate |].
  now apply IH.
Qed.

(** [*pattern*] holds no [**] when the pattern has no star and is not
    empty, so [glob] accepts it. *)
Lemma no_double_star (c : ascii) (p : string) :
  literal (String c p) = true ->
  str_contains "**" ("*" +:+ String c p +:+ "*") = false.
Proof.
  intros (Hs & _ & _)%literal_plain.
  rewrite append_cons, append_nil.
  change (str_contains "**" (String "*" (String c p +:+ "*")))
    with (String.prefix "**" (String "*" (String c p +:+ "*"))
          || str_contains "**" (String c p +:+ "*")).
  rewrite (no_double_star_tail _ Hs), orb_false_r.
  rewrite append_cons. cbn [String.prefix].
  cbn [str_has_char] in Hs. apply orb_false_iff in Hs as [Hc _].
  destruct (ascii_dec "*" "*") as [_|Hne]; [| congruence].
  destruct (ascii_dec "*" c) as [<-|Hne]; [discriminate | reflexivity].
Qed.

End GlobFacts.

(** ** Running the cached query *)

Section QueryFacts.

Local Open Scope list_scope.

Context {Table W : Type}.
Variable df_empty : Table -> bool.
Variable to_excel : Table -> string.
Variable read_excel : string -> option Table.
Variable source : string -> string -> W -> source_result Table * W.

Local Abbreviation query :=
  (query_data_with_cache df_empty to_excel read_excel source).
Local Abbreviation fetch := (query_and_cache df_empty to_excel source).

Ltac run_prims :=
  unfold Path_mkdir, child_exists, pd_read_excel, df_to_excel, call_source,
    Path_unlink, Path_exists, logger_info, logger_warning, logger_error,
    emit, get_files, put_files, try_except, mbind, M_bind, bind, ret, raise;
  cbn.

Lemma entries_at_dir (fs : gmap string path_state) (dir : string)
    (es : gmap string node) :
  fs !! dir = Some (Directory es) -> entries_at fs dir = es.
Proof. unfold entries_at. now intros ->. Qed.

Lemma mkdir_run (dir : string) (w : world W) :
  Path_mkdir dir w =
    if can_mkdir (files w) dir
    then (Ok tt, made_dir dir w, mkdir_events dir w)
    else (Raise (mkdir_error (files w) dir), w, []).
Proof.
  unfold Path_mkdir, can_mkdir, mkdir_error, made_dir, mkdir_events,
    lookup_absent.
  run_prims.
  destruct (files w !! dir) as [[| |es]|]; try reflexivity;
    destruct (has_nul dir); try reflexivity;
    destruct (path_refused _ dir); reflexivity.
Qed.

(** The first [try] never raises and never changes the world. *)
Lemma read_cache_run (dir name : string) (w : world W) :
  read_cache read_excel dir name w =
    match entries_at (files w) dir !! name with
    | Some (File bytes) =>
        match read_excel bytes with
        | Some df =>
            (Ok (Some df), w,
             [EvLog INFO (MsgReadCache dir name); EvRead dir name;
              EvLog INFO MsgCacheLoaded])
        | None =>
            (Ok None, w,
             [EvLog INFO (MsgReadCache dir name); EvRead dir name;
              EvLog ERROR (MsgReadCacheFailed BadSpreadsheet)])
        end
    | Some SubDir =>
        (Ok None, w,
         [EvLog INFO (MsgReadCache dir name); EvRead dir name;
          EvLog ERROR (MsgReadCacheFailed IsADirectoryError)])
    | None =>
        (Ok None, w,
         [EvLog INFO (MsgReadCache dir name); EvRead dir name;
          EvLog ERROR (MsgReadCacheFailed FileNotFoundError)])
    end.
Proof.
  unfold read_cache. run_prims.
  destruct (entries_at (files w) dir !! name) as [[bytes|]|];
    [destruct (read_excel bytes) | |]; reflexivity.
Qed.

(** The second [try] never raises; it writes only for a non-empty table. *)
Lemma fetch_run (start_time end_time dir name : string) (w : world W) :
  fetch start_time end_time dir name w =
    let pre := [EvLog INFO (MsgQueryStart start_time end_time);
                EvSource start_time end_time] in
    match source start_time end_time (source_state w) with
    | (SrcRaises, s) =>
        (Ok None, World (files w) s,
         pre ++ [EvLog ERROR (MsgQueryFailed SourceError)])
    | (SrcNone, s) =>
        (Ok None, World (files w) s, pre ++ [EvLog WARNING MsgEmptyResult])
    | (SrcTable t, s) =>
        if df_empty t then
          (Ok None, World (files w) s, pre ++ [EvLog WARNING MsgEmptyResult])
        else
          match files w !! dir with
          | Some (Directory es) =>
              match es !! name with
              | Some SubDir =>
                  (Ok (Some t), World (files w) s,
                   pre ++ [EvWrite dir name;
                           EvLog ERROR (MsgSaveFailed IsADirectoryError)])
              | _ =>
                  (Ok (Some t),
                   World (<[dir := Directory (<[name := File (to_excel t)]> es)]>
                            (files w)) s,
                   pre ++ [EvWrite dir name; EvLog INFO (MsgCached dir name)])
              end
          | _ =>
              (Ok (Some t), World (files w) s,
               pre ++ [EvWrite dir name;
                       EvLog ERROR (MsgSaveFailed FileNotFoundError)])
          end
    end.
Proof.
  unfold query_and_cache. run_prims.
  destruct (source start_time end_time (source_state w)) as [[| |t] s];
    try reflexivity.
  cbn. destruct (df_empty t); cbn; [reflexivity |].
  destruct (files w !! dir) as [[| |es]|]; try reflexivity.
  destruct (es !! name) as [[]|]; reflexivity.
Qed.

Lemma query_run_from (start_time end_time dir : string) (force : bool)
    (w w1 : world W) (t1 : list event) (es : gmap string node) :
  Path_mkdir dir w = (Ok tt, w1, t1) ->
  files w1 !! dir = Some (Directory es) ->
  (es !! cache_filename start_time end_time = None ->
   path_fits dir (cache_filename start_time end_time) = true) ->
  query start_time end_time dir force w =
    let name := cache_filename start_time end_time in
    match (if force then None else es !! name) with
    | None =>
        let '(r, w', t) := fetch start_time end_time dir name w1 in
        (r, w', t1 ++ t)
    | Some nd =>
        match cached read_excel nd with
        | inl df =>
            (Ok (Some df), w1,
             t1 ++
             [EvLog INFO (MsgReadCache dir name); EvRead dir name;
              EvLog INFO MsgCacheLoaded])
        | inr e =>
            let '(r, w', t) := fetch start_time end_time dir name w1 in
            (r, w',
             t1 ++
             [EvLog INFO (MsgReadCache dir name); EvRead dir name;
              EvLog ERROR (MsgReadCacheFailed e)] ++ t)
        end
    end.
Proof.
  unfold path_fits. intros Hmk Hdir. unfold query_data_with_cache.
  generalize (cache_filename start_time end_time) as name. intros name Hfit.
  cbn zeta. unfold mbind, M_bind, bind, child_exists, get_files, ret.
  rewrite Hmk. unfold mbind, M_bind, bind, ret, raise.
  rewrite (entries_at_dir _ _ _ Hdir).
  destruct (es !! name) as [nd|] eqn:Hnd.
  - destruct force; cbn [andb negb].
    + destruct (fetch start_time end_time dir name w1) as [[r w'] t].
      reflexivity.
    + rewrite read_cache_run.
      rewrite (entries_at_dir _ _ _ Hdir), Hnd. unfold cached.
      destruct nd as [bytes|]; [destruct (read_excel bytes) |];
        try reflexivity;
        destruct (fetch start_time end_time dir name w1) as [[r w'] t];
        reflexivity.
  - apply negb_true_iff in Hfit; [| reflexivity]. rewrite Hfit.
    cbn [andb]. destruct force;
      destruct (fetch start_time end_time dir name w1) as [[r w'] t];
      reflexivity.
Qed.

(** The check of line 42 stands outside both [try] blocks: with no
    artifact and an artifact path that the system refuses, the [OSError]
    of [exists] reaches the caller, whatever [force_refresh] is. *)
Lemma query_run_refused (start_time end_time dir : string) (force : bool)
    (w : world W) :
  can_mkdir (files w) dir = true ->
  entries_at (files w) dir !! cache_filename start_time end_time = None ->
  path_fits dir (cache_filename start_time end_time) = false ->
  query start_time end_time dir force w
    = (Raise OSError, made_dir dir w, mkdir_events dir w).
Proof.
  unfold path_fits. intros Hcan Hmiss Hfit%negb_false_iff.
  unfold query_data_with_cache.
  generalize dependent (cache_filename start_time end_time). intros name Hmiss Hfit.
  cbn zeta. unfold mbind, M_bind, bind, child_exists, get_files, ret.
  rewrite mkdir_run, Hcan. unfold mbind, M_bind, bind, ret, raise.
  replace (entries_at (files (made_dir dir w)) dir !! name)
    with (@None node).
  - rewrite Hfit. now rewrite app_nil_r.
  - rewrite <- Hmiss. unfold made_dir, entries_at.
    destruct (files w !! dir) as [[| |es]|] eqn:Hd; rewrite ?Hd; try reflexivity.
    cbn [files]. now rewrite lookup_insert_eq, lookup_empty.
Qed.

Lemma made_dir_lookup (dir : string) (w : world W) :
  can_mkdir (files w) dir = true ->
  files (made_dir dir w) !! dir = Some (Directory (entries_at (files w) dir)).
Proof.
  unfold can_mkdir, made_dir, entries_at.
  destruct (files w !! dir) as [[| |es]|] eqn:Hd; try discriminate; intros _.
  - exact Hd.
  - cbn. apply lookup_insert_eq.
Qed.

Lemma made_dir_entries_at (dir d : string) (w : world W) :
  entries_at (files (made_dir dir w)) d = entries_at (files w) d.
Proof.
  unfold made_dir, entries_at.
  destruct (files w !! dir) as [[| |es]|] eqn:Hdir; try reflexivity.
  cbn [files]. destruct (decide (d = dir)) as [->|Hne].
  - now rewrite lookup_insert_eq, Hdir.
  - now rewrite lookup_insert_ne.
Qed.

Lemma made_dir_other (dir d : string) (w : world W) :
  d <> dir -> files (made_dir dir w) !! d = files w !! d.
Proof.
  intros Hne. unfold made_dir.
  destruct (files w !! dir) as [[| |es]|]; try reflexivity.
  cbn. now apply lookup_insert_ne.
Qed.

Lemma made_dir_source (dir : string) (w : world W) :
  source_state (made_dir dir w) = source_state w.
Proof. unfold made_dir. now destruct (files w !! dir) as [[| |es]|]. Qed.

Lemma query_run_bad (start_time end_time dir : string) (force : bool)
    (w : world W) :
  can_mkdir (files w) dir = false ->
  query start_time end_time dir force w =
    (Raise (mkdir_error (files w) dir), w, []).
Proof.
  intros Hdir. unfold query_data_with_cache.
  unfold mbind at 1, M_bind, bind at 1. now rewrite mkdir_run, Hdir.
Qed.

(** The whole of [query_data_with_cache] when the directory is there or
    can be made. *)
Lemma query_run (start_time end_time dir : string) (force : bool)
    (w : world W) :
  can_mkdir (files w) dir = true ->
  (entries_at (files w) dir !! cache_filename start_time end_time = None ->
   path_fits dir (cache_filename start_time end_time) = true) ->
  query start_time end_time dir force w =
    let name := cache_filename start_time end_time in
    let w1 := made_dir dir w in
    match (if force then None else entries_at (files w) dir !! name) with
    | None =>
        let '(r, w', t) := fetch start_time end_time dir name w1 in
        (r, w', mkdir_events dir w ++ t)
    | Some nd =>
        match cached read_excel nd with
        | inl df =>
            (Ok (Some df), w1,
             mkdir_events dir w ++
             [EvLog INFO (MsgReadCache dir name); EvRead dir name;
              EvLog INFO MsgCacheLoaded])
        | inr e =>
            let '(r, w', t) := fetch start_time end_time dir name w1 in
            (r, w',
             mkdir_events dir w ++
             [EvLog INFO (MsgReadCache dir name); EvRead dir name;
              EvLog ERROR (MsgReadCacheFailed e)] ++ t)
        end
    end.
Proof.
  intros Hcan Hfit. pose proof (made_dir_lookup dir w Hcan) as Hw1.
  apply query_run_from; [| exact Hw1 | exact Hfit].
  now rewrite mkdir_run, Hcan.
Qed.

(** An artifact that is there is found, whatever its name. *)
Lemma found_fits (es : gmap string node) (name dir : string) (nd : node) :
  es !! name = Some nd -> es !! name = None -> path_fits dir name = true.
Proof. congruence. Qed.

Lemma fits_or_refused (es : gmap string node) (dir name : string) :
  (es !! name = None -> path_fits dir name = true)
  \/ (es !! name = None /\ path_fits dir name = false).
Proof.
  destruct (es !! name); [left; congruence |].
  destruct (path_fits dir name); [left | right]; auto.
Qed.

Lemma entries_at_some (fs : gmap string path_state) (dir name : string)
    (nd : node) :
  entries_at fs dir !! name = Some nd ->
  exists es, fs !! dir = Some (Directory es) /\ es !! name = Some nd.
Proof.
  unfold entries_at.
  destruct (fs !! dir) as [[| |es]|]; try (rewrite lookup_empty; discriminate).
  eauto.
Qed.

Lemma made_dir_id (dir : string) (w : world W) (es : gmap string node) :
  files w !! dir = Some (Directory es) ->
  made_dir dir w = w /\ mkdir_events dir w = [] /\ can_mkdir (files w) dir = true.
Proof. unfold made_dir, mkdir_events, can_mkdir. now intros ->. Qed.

Lemma count_app (p : event -> bool) (t1 t2 : list event) :
  count_events p (t1 ++ t2) = count_events p t1 + count_events p t2.
Proof. unfold count_events. now rewrite List.filter_app, length_app. Qed.

Lemma mkdir_events_count (p : event -> bool) (dir : string) (w : world W) :
  (forall d, p (EvMkdir d) = false) ->
  count_events p (mkdir_events dir w) = 0.
Proof.
  intros Hp. unfold mkdir_events, count_events.
  destruct (files w !! dir) as [[| |es]|]; cbn; try reflexivity.
  now rewrite Hp.
Qed.

Lemma cache_hit_run (start_time end_time dir : string)
    (w : world W) (bytes : string) (df : Table) :
  entries_at (files w) dir !! cache_filename start_time end_time
    = Some (File bytes) ->
  read_excel bytes = Some df ->
  query start_time end_time dir false w =
    (Ok (Some df), w,
     [EvLog INFO (MsgReadCache dir (cache_filename start_time end_time));
      EvRead dir (cache_filename start_time end_time);
      EvLog INFO MsgCacheLoaded]).
Proof.
  intros Hnode Hread.
  destruct (entries_at_some _ _ _ _ Hnode) as (es & Hdir & _).
  destruct (made_dir_id _ _ _ Hdir) as (Hw & Hev & Hcan).
  rewrite (query_run _ _ _ _ _ Hcan (found_fits _ _ _ _ Hnode)). cbn zeta.
  rewrite Hnode, Hw, Hev. cbn [cached]. now rewrite Hread.
Qed.

(** C2. With [force_refresh] false, when the artifact file of the range
    exists and deserializes to [df], the query returns [df], does not call
    the data source, and leaves the world as it was: it only logs, reads
    the file and logs again. *)
Theorem cache_hit_skips_source (start_time end_time dir : string)
    (w : world W) (bytes : string) (df : Table) :
  entries_at (files w) dir !! cache_filename start_time end_time
    = Some (File bytes) ->
  read_excel bytes = Some df ->
  let name := cache_filename start_time end_time in
  let r := query start_time end_time dir false w in
  result r = Ok (Some df)
  /\ count_events is_source_call (events r) = 0
  /\ final r = w
  /\ events r = [EvLog INFO (MsgReadCache dir name); EvRead dir name;
                 EvLog INFO MsgCacheLoaded].
Proof.
  intros Hnode Hread. cbn zeta.
  rewrite (cache_hit_run _ _ _ _ _ _ Hnode Hread). repeat split.
Qed.


(** C4. With [force_refresh] false, when the artifact file exists but its
    bytes do not deserialize, the query logs the read failure as an error,
    calls the data source once, and returns without raising what the
    source gave (a non-empty table, and [None] otherwise). It never
    unlinks: the file is still there afterwards, with its old bytes or,
    after a non-empty answer, with the bytes of the new table. *)
Theorem corrupt_cache_falls_back (start_time end_time dir : string)
    (w : world W) (bytes : string) :
  entries_at (files w) dir !! cache_filename start_time end_time
    = Some (File bytes) ->
  read_excel bytes = None ->
  let name := cache_filename start_time end_time in
  let r := query start_time end_time dir false w in
  let answer := fst (source start_time end_time (source_state w)) in
  result r = Ok (returned df_empty answer)
  /\ In (EvLog ERROR (MsgReadCacheFailed BadSpreadsheet)) (events r)
  /\ count_events is_source_call (events r) = 1
  /\ count_events is_unlink (events r) = 0
  /\ entries_at (files (final r)) dir !! name
       = Some (File match returned df_empty answer with
                    | Some t => to_excel t
                    | None => bytes
                    end).
Proof.
  intros Hnode Hread. cbn zeta.
  destruct (entries_at_some _ _ _ _ Hnode) as (es & Hdir & Hes).
  destruct (made_dir_id _ _ _ Hdir) as (Hw & Hev & Hcan).
  rewrite (query_run _ _ _ _ _ Hcan (found_fits _ _ _ _ Hnode)). cbn zeta.
  rewrite Hnode, Hw, Hev. cbn [cached]. rewrite Hread.
  rewrite fetch_run, Hdir, Hes. cbn zeta.
  destruct (source start_time end_time (source_state w)) as [[| |t] s];
    cbn [fst returned]; [| | destruct (df_empty t) eqn:Hemp];
    cbn [result final events fst snd files app];
    (split; [reflexivity |]);
    (split; [cbn; tauto |]);
    (split; [reflexivity |]);
    (split; [reflexivity |]);
    try exact Hnode.
  unfold entries_at. rewrite lookup_insert_eq. apply lookup_insert_eq.
Qed.

(** C5. Whenever the query gets as far as calling the data source and the
    source raises, returns [None] or returns an empty table, the query
    returns [None] without raising, attempts no write, and leaves every
    directory with the entries it had (the cache directory may have been
    made, empty). *)
Theorem source_failure_gives_none (start_time end_time dir : string)
    (force : bool) (w : world W) :
  let r := query start_time end_time dir force w in
  count_events is_source_call (events r) <> 0 ->
  returned df_empty (fst (source start_time end_time (source_state w)))
    = None ->
  result r = Ok None
  /\ count_events is_write (events r) = 0
  /\ files (final r) = files (made_dir dir w)
  /\ (forall d, entries_at (files (final r)) d = entries_at (files w) d).
Proof.
  cbn zeta. intros Hcalled Hnone.
  pose proof (made_dir_entries_at dir) as Hent.
  destruct (can_mkdir (files w) dir) eqn:Hcan.
  2: { rewrite (query_run_bad _ _ _ _ _ Hcan) in Hcalled. now cbn in Hcalled. }
  destruct (fits_or_refused (entries_at (files w) dir) dir
              (cache_filename start_time end_time)) as [Hfit | [Hmiss Hfit]].
  2: { rewrite (query_run_refused _ _ _ _ _ Hcan Hmiss Hfit) in Hcalled.
       exfalso. apply Hcalled. now apply mkdir_events_count. }
  assert (Hmk : count_events is_write (mkdir_events dir w) = 0)
    by now apply mkdir_events_count.
  revert Hcalled. rewrite (query_run _ _ _ _ _ Hcan Hfit). cbn zeta.
  rewrite fetch_run, made_dir_source. cbn zeta.
  destruct (source start_time end_time (source_state w)) as [[| |t] s];
    cbn [fst returned] in Hnone;
    [| | destruct (df_empty t) eqn:Hemp; [| discriminate]];
    (destruct (if force then None else _) as [nd|];
     [destruct (cached read_excel nd) as [df|e] |]);
    cbn [result final events fst snd files];
    intros Hcalled;
    try (exfalso; apply Hcalled; rewrite count_app;
         rewrite (mkdir_events_count is_source_call) by reflexivity;
         reflexivity);
    (split; [reflexivity |]);
    (split; [rewrite ?count_app, Hmk; reflexivity |]);
    (split; [reflexivity |]); intros d; apply Hent.
Qed.

(** What one run of the second [try] does to the file system. *)
Lemma fetch_frame (start_time end_time dir name : string) (w : world W) :
  let r := fetch start_time end_time dir name w in
  (forall d, d <> dir -> files (final r) !! d = files w !! d)
  /\ (forall n, n <> name ->
       entries_at (files (final r)) dir !! n = entries_at (files w) dir !! n)
  /\ (files (final r) = files w
      \/ exists t es,
           files w !! dir = Some (Directory es)
           /\ files (final r)
               = <[dir := Directory (<[name := File (to_excel t)]> es)]>
                   (files w))
  /\ count_events is_unlink (events r) = 0
  /\ count_events is_write (events r) <= 1
  /\ (forall d n, In (EvWrite d n) (events r) -> d = dir /\ n = name)
  /\ (forall d, ~ In (EvMkdir d) (events r)).
Proof.
  cbn zeta. rewrite fetch_run. cbn zeta.
  destruct (source start_time end_time (source_state w)) as [[| |t] s];
    [| | destruct (df_empty t);
         [| destruct (files w !! dir) as [[| |es]|] eqn:Hdir;
            [| | destruct (es !! name) as [[bytes|]|] eqn:Hnd |]]];
    cbn [result final events fst snd files app];
    (split; [intros d Hd; try reflexivity; now rewrite lookup_insert_ne |]);
    (split; [intros n Hn; try reflexivity;
             unfold entries_at; rewrite lookup_insert_eq, Hdir;
             now rewrite lookup_insert_ne |]);
    (split; [first [now left | right; eauto] |]);
    (split; [reflexivity |]);
    (split; [cbn; lia |]);
    (split; [intros d n H; cbn in H; intuition congruence |]);
    intros d H; cbn in H; intuition discriminate.
Qed.

(** C9. A call of the query changes nothing outside the cache directory,
    and inside it nothing but the artifact file of the range: the
    directory is as before or has just been made, every other entry is
    as before, and the artifact entry is as before or a file holding the
    bytes of a table. The call unlinks nothing, attempts at most one
    write, and that at the artifact path; the only directory it can make
    is the cache directory. *)
Theorem query_frame (start_time end_time dir : string) (force : bool)
    (w : world W) :
  let name := cache_filename start_time end_time in
  let r := query start_time end_time dir force w in
  (forall d, d <> dir -> files (final r) !! d = files w !! d)
  /\ (files (final r) !! dir = files w !! dir
      \/ exists es, files (final r) !! dir = Some (Directory es))
  /\ (forall n, n <> name ->
       entries_at (files (final r)) dir !! n = entries_at (files w) dir !! n)
  /\ (entries_at (files (final r)) dir !! name
        = entries_at (files w) dir !! name
      \/ exists t, entries_at (files (final r)) dir !! name
                    = Some (File (to_excel t)))
  /\ count_events is_unlink (events r) = 0
  /\ count_events is_write (events r) <= 1
  /\ (forall d n, In (EvWrite d n) (events r) -> d = dir /\ n = name)
  /\ (forall d, In (EvMkdir d) (events r) -> d = dir).
Proof.
  cbn zeta. set (name := cache_filename start_time end_time).
  destruct (can_mkdir (files w) dir) eqn:Hcan.
  2: { rewrite (query_run_bad _ _ _ _ _ Hcan).
       cbn [result final events fst snd].
       repeat split; auto; try (cbn; lia); intros; contradiction. }
  pose proof (made_dir_lookup _ _ Hcan) as Hw1.
  assert (Hent : forall n,
             entries_at (files (made_dir dir w)) dir !! n
             = entries_at (files w) dir !! n).
  { intros n. unfold entries_at at 1. now rewrite Hw1. }
  assert (Hmk : forall d, In (EvMkdir d) (mkdir_events dir w) -> d = dir).
  { intros d. unfold mkdir_events.
    destruct (files w !! dir) as [[| |es]|]; cbn; intuition congruence. }
  assert (Hmw : forall d n, ~ In (EvWrite d n) (mkdir_events dir w)).
  { intros d n. unfold mkdir_events.
    destruct (files w !! dir) as [[| |es]|]; cbn; intuition discriminate. }
  pose proof (mkdir_events_count is_unlink dir w (fun _ => eq_refl)) as Hu.
  pose proof (mkdir_events_count is_write dir w (fun _ => eq_refl)) as Hwr.
  destruct (fits_or_refused (entries_at (files w) dir) dir name)
    as [Hfit | [Hmiss Hfit]].
  2: { rewrite (query_run_refused _ _ _ _ _ Hcan Hmiss Hfit).
       cbn [result final events fst snd].
       split; [intros d Hd; now apply made_dir_other |].
       split; [right; eauto |].
       split; [intros n Hn; apply Hent |].
       split; [left; apply Hent |].
       split; [exact Hu |].
       split; [rewrite Hwr; lia |].
       split; [intros d n H; now apply Hmw in H | exact Hmk]. }
  destruct (fetch_frame start_time end_time dir name (made_dir dir w))
    as (F1 & F2 & F3 & F4 & F5 & F6 & F7).
  rewrite (query_run _ _ _ _ _ Hcan Hfit). cbn zeta. fold name.
  destruct (fetch start_time end_time dir name (made_dir dir w))
    as [[r w'] t] eqn:Hfetch.
  cbn [result final events fst snd] in F1, F2, F3, F4, F5, F6, F7.
  assert (Hname : entries_at (files w') dir !! name
                    = entries_at (files w) dir !! name
                  \/ exists t0, entries_at (files w') dir !! name
                                 = Some (File (to_excel t0))).
  { destruct F3 as [-> | (t0 & es & _ & ->)]; [left; apply Hent |].
    right. exists t0. unfold entries_at.
    rewrite lookup_insert_eq. apply lookup_insert_eq. }
  assert (Hdir' : exists es, files w' !! dir = Some (Directory es)).
  { destruct F3 as [-> | (t0 & es & _ & ->)]; [eauto |].
    rewrite lookup_insert_eq. eauto. }
  destruct (if force then None else entries_at (files w) dir !! name)
    as [nd|]; [destruct (cached read_excel nd) as [df|e] |];
    cbn [result final events fst snd].
  - split; [intros d Hd; now apply made_dir_other |].
    split; [right; eauto |].
    split; [intros n Hn; apply Hent |].
    split; [left; apply Hent |].
    split; [rewrite !count_app, Hu; reflexivity |].
    split; [rewrite !count_app, Hwr; cbn; lia |].
    split.
    + intros d n [H | H]%in_app_or; [now apply Hmw in H |].
      cbn in H. intuition discriminate.
    + intros d [H | H]%in_app_or; [now apply Hmk |].
      cbn in H. intuition discriminate.
  - split; [intros d Hd; rewrite F1 by exact Hd; now apply made_dir_other |].
    split; [right; exact Hdir' |].
    split; [intros n Hn; rewrite F2 by exact Hn; apply Hent |].
    split; [exact Hname |].
    split; [rewrite !count_app, Hu, F4; reflexivity |].
    split; [rewrite !count_app, Hwr; cbn; lia |].
    split.
    + intros d n [H | [H | H]%in_app_or]%in_app_or;
        [now apply Hmw in H | cbn in H; intuition discriminate
        | now apply F6].
    + intros d [H | [H | H]%in_app_or]%in_app_or;
        [now apply Hmk | cbn in H; intuition discriminate
        | now apply F7 in H].
  - split; [intros d Hd; rewrite F1 by exact Hd; now apply made_dir_other |].
    split; [right; exact Hdir' |].
    split; [intros n Hn; rewrite F2 by exact Hn; apply Hent |].
    split; [exact Hname |].
    split; [rewrite !count_app, Hu, F4; reflexivity |].
    split; [rewrite !count_app, Hwr; cbn; lia |].
    split.
    + intros d n [H | H]%in_app_or; [now apply Hmw in H | now apply F6].
    + intros d [H | H]%in_app_or; [now apply Hmk | now apply F7 in H].
Qed.

(** C1 (amended). Two non-forced queries in a row, the second on the world
    the first has left, with a cache directory that is there or can be
    made. If the first finds a valid artifact, both return its table and
    neither writes. If the first finds no artifact, at an artifact path
    that the system accepts, or finds one that does not deserialize, and
    the source answers with a non-empty table [t] whose sheet reads back
    as [t], then the first returns [t] and writes the artifact exactly
    once, and the second returns [t] from the cache: no write, no call of
    the source, the world unchanged. *)
Theorem repeated_query_same_table (start_time end_time dir : string)
    (w : world W) :
  can_mkdir (files w) dir = true ->
  let name := cache_filename start_time end_time in
  let r1 := query start_time end_time dir false w in
  let r2 := query start_time end_time dir false (final r1) in
  (forall bytes df,
      entries_at (files w) dir !! name = Some (File bytes) ->
      read_excel bytes = Some df ->
      result r1 = Ok (Some df) /\ result r2 = Ok (Some df)
      /\ count_events is_write (events r1) = 0
      /\ count_events is_write (events r2) = 0)
  /\ (forall t s,
        (entries_at (files w) dir !! name = None /\ path_fits dir name = true
         \/ exists bytes,
              entries_at (files w) dir !! name = Some (File bytes)
              /\ read_excel bytes = None) ->
        source start_time end_time (source_state w) = (SrcTable t, s) ->
        df_empty t = false ->
        read_excel (to_excel t) = Some t ->
        result r1 = Ok (Some t) /\ result r2 = Ok (Some t)
        /\ count_events is_write (events r1) = 1
        /\ count_events is_write (events r2) = 0
        /\ count_events is_source_call (events r2) = 0
        /\ final r2 = final r1).
Proof.
  intros Hcan. cbn zeta.
  set (name := cache_filename start_time end_time) in *.
  split.
  - intros bytes df Hnode Hread.
    rewrite (cache_hit_run _ _ _ _ _ _ Hnode Hread).
    cbn [final fst snd].
    rewrite (cache_hit_run _ _ _ _ _ _ Hnode Hread). repeat split.
  - intros t s Hmiss Hsrc Hemp Hround.
    pose proof (made_dir_lookup _ _ Hcan) as Hw1.
    pose proof (mkdir_events_count is_write dir w (fun _ => eq_refl)) as Hwr.
    assert (Hrun :
      exists t1 t2,
        query start_time end_time dir false w =
          (Ok (Some t),
           World (<[dir := Directory (<[name := File (to_excel t)]>
                                        (entries_at (files w) dir))]>
                    (files (made_dir dir w))) s,
           mkdir_events dir w ++ t1 ++ t2)
        /\ count_events is_write t1 = 0 /\ count_events is_write t2 = 1).
    { assert (Hfit : entries_at (files w) dir !! name = None ->
                     path_fits dir name = true).
      { destruct Hmiss as [[_ Hfit] | (bytes & Hnode & _)];
          [auto | congruence]. }
      rewrite (query_run _ _ _ _ _ Hcan Hfit). cbn zeta. fold name.
      rewrite fetch_run, made_dir_source, Hw1, Hsrc, Hemp. cbn zeta.
      destruct Hmiss as [[Hnone _] | (bytes & Hnode & Hbad)].
      - rewrite Hnone. eexists [], _. split; [reflexivity |]. now split.
      - rewrite Hnode. cbn [cached]. rewrite Hbad.
        eexists _, _. split; [reflexivity |]. now split. }
    destruct Hrun as (t1 & t2 & -> & Ht1 & Ht2).
    cbn [result final events fst snd].
    assert (Hnode' :
      entries_at
        (files (World (<[dir := Directory (<[name := File (to_excel t)]>
                                             (entries_at (files w) dir))]>
                         (files (made_dir dir w))) s)) dir !! name
      = Some (File (to_excel t))).
    { cbn [files]. unfold entries_at at 1.
      rewrite lookup_insert_eq. apply lookup_insert_eq. }
    rewrite (cache_hit_run _ _ _ _ _ _ Hnode' Hround).
    cbn [result final events fst snd].
    repeat split. rewrite !count_app, Hwr, Ht1, Ht2. reflexivity.
Qed.

(** The query never raises once the cache directory is there or can be
    made and the artifact path is one the system accepts, and turns a
    raising source into an error log and [None]. When the directory cannot
    be made, the exception of [mkdir] reaches the caller; when there is no
    artifact and the system refuses the artifact path, the [OSError] of
    [exists] does. *)
Lemma query_outcome (start_time end_time dir : string)
    (force : bool) (w : world W) :
  let r := query start_time end_time dir force w in
  let name := cache_filename start_time end_time in
  (can_mkdir (files w) dir = true ->
   (entries_at (files w) dir !! name = None -> path_fits dir name = true) ->
   (exists v, result r = Ok v)
   /\ (count_events is_source_call (events r) <> 0 ->
       fst (source start_time end_time (source_state w)) = SrcRaises ->
       result r = Ok None
       /\ In (EvLog ERROR (MsgQueryFailed SourceError)) (events r)))
  /\ (can_mkdir (files w) dir = false ->
      result r = Raise (mkdir_error (files w) dir) /\ events r = [])
  /\ (can_mkdir (files w) dir = true ->
      entries_at (files w) dir !! name = None ->
      path_fits dir name = false ->
      result r = Raise OSError
      /\ count_events is_source_call (events r) = 0).
Proof.
  cbn zeta. split; [| split].
  - intros Hcan Hfit. rewrite (query_run _ _ _ _ _ Hcan Hfit). cbn zeta.
    rewrite fetch_run. cbn zeta.
    destruct (source start_time end_time (source_state (made_dir dir w)))
      as [[| |t] s] eqn:Hsrc; rewrite made_dir_source in Hsrc; rewrite Hsrc;
      [| | destruct (df_empty t);
           [| destruct (files (made_dir dir w) !! dir) as [[| |es]|];
              [| | destruct (es !! _) as [[]|] |]]];
      (destruct (if force then None else _) as [nd|];
       [destruct (cached read_excel nd) as [df|e] |]);
      cbn [result final events fst snd];
      (split; [eauto |]); intros Hcalled Hraise; try discriminate;
      try (exfalso; apply Hcalled; rewrite count_app;
           rewrite (mkdir_events_count is_source_call) by reflexivity;
           reflexivity);
      (split; [reflexivity |]);
      repeat (apply in_or_app; right); cbn; tauto.
  - intros Hcan. rewrite (query_run_bad _ _ _ _ _ Hcan). now split.
  - intros Hcan Hmiss Hfit.
    rewrite (query_run_refused _ _ _ _ _ Hcan Hmiss Hfit).
    split; [reflexivity |]. now apply mkdir_events_count.
Qed.

End QueryFacts.

(** ** Running the cache administration *)

Section AdminFacts.

Local Open Scope list_scope.

Context {W : Type}.

Lemma glob_run (dir pat : string) (w : world W) :
  str_contains "**" pat = false ->
  Path_glob dir pat w
    = (Ok (names_matching pat (entries_at (files w) dir)), w, []).
Proof. unfold Path_glob. now intros ->. Qed.

Lemma glob_of_ok (pattern : option string) :
  plain_pattern pattern = true -> str_contains "**" (glob_of pattern) = false.
Proof.
  destruct pattern as [[|c p]|]; try reflexivity.
  apply no_double_star.
Qed.

Lemma names_matching_in (pat : string) (es : gmap string node) (n : string) :
  In n (names_matching pat es)
  <-> is_Some (es !! n) /\ Glob.fnmatch n pat = true.
Proof.
  unfold names_matching. rewrite List.filter_In, in_map_iff. split.
  - intros [[[n' nd] [<- Hin]] Hm]. split; [| exact Hm].
    apply list_elem_of_In, elem_of_map_to_list in Hin. cbn. eauto.
  - intros [[nd Hnd] Hm]. split; [| exact Hm].
    exists (n, nd). split; [reflexivity |].
    now apply list_elem_of_In, elem_of_map_to_list.
Qed.

(** The directory after the loop. *)
Lemma unlink_one_lookup (es : gmap string node) (name n : string) :
  unlink_one es name !! n
    = match es !! n with
      | Some (File bytes) => if decide (n = name) then None else Some (File bytes)
      | o => o
      end.
Proof.
  unfold unlink_one. destruct (decide (n = name)) as [->|Hne].
  - destruct (es !! name) as [[bytes|]|] eqn:Hnd; rewrite ?Hnd; try reflexivity.
    now rewrite lookup_delete_eq.
  - destruct (es !! name) as [[bytes|]|]; rewrite ?lookup_delete_ne by congruence;
      now destruct (es !! n) as [[]|].
Qed.

Lemma unlinked_lookup (names : list string) (es : gmap string node)
    (n : string) :
  unlinked names es !! n
    = match es !! n with
      | Some (File bytes) =>
          if decide (n ∈ names) then None else Some (File bytes)
      | o => o
      end.
Proof.
  revert es. induction names as [|name names IH]; intros es.
  - cbn. now destruct (es !! n) as [[]|].
  - unfold unlinked in *. cbn [foldl]. rewrite IH, unlink_one_lookup.
    destruct (es !! n) as [[bytes|]|]; try reflexivity.
    destruct (decide (n = name)) as [->|Hne].
    + destruct (decide (name ∈ name :: names)) as [|Hn]; [reflexivity |].
      exfalso. apply Hn. apply elem_of_cons. now left.
    + destruct (decide (n ∈ names)) as [Hin|Hin];
        destruct (decide (n ∈ name :: names)) as [Hin'|Hin'];
        try reflexivity; exfalso.
      * apply Hin'. apply elem_of_cons. now right.
      * apply elem_of_cons in Hin' as [->|]; [now apply Hne | now apply Hin].
Qed.

Lemma unlink_trace_unlinks (dir : string) (names : list string)
    (es : gmap string node) (d n : string) :
  In (EvUnlink d n) (unlink_trace dir names es) <-> d = dir /\ In n names.
Proof.
  revert es. induction names as [|name names IH]; intros es; cbn.
  - tauto.
  - rewrite IH. split.
    + intros [H | [H | H]]; [injection H as <- <- | discriminate |]; tauto.
    + intros [-> [-> | H]]; [now left | right; right; tauto].
Qed.

Lemma unlink_trace_subdir (dir : string) (names : list string)
    (es : gmap string node) (n : string) :
  In n names -> es !! n = Some SubDir ->
  In (EvLog ERROR (MsgDeleteFailed dir n IsADirectoryError))
     (unlink_trace dir names es).
Proof.
  revert es. induction names as [|name names IH]; intros es; cbn; [tauto |].
  intros [-> | Hin] Hnd.
  - rewrite Hnd. tauto.
  - right. right. apply IH; [exact Hin |].
    rewrite unlink_one_lookup. now rewrite Hnd.
Qed.

(** The loop of lines 137-142 never raises. *)
Lemma unlink_loop_run (dir : string) (names : list string)
    (w : world W) (es : gmap string node) :
  files w !! dir = Some (Directory es) ->
  for_each names (fun name =>
    try_except
      (Path_unlink dir name ;; logger_info (MsgDeleted dir name))
      (fun e => logger_error (MsgDeleteFailed dir name e))) w
  = (Ok tt,
     World (<[dir := Directory (unlinked names es)]> (files w))
           (source_state w),
     unlink_trace dir names es).
Proof.
  revert w es. induction names as [|name names IH]; intros w es Hdir.
  - cbn. unfold ret. destruct w as [fs s]. cbn in *.
    now rewrite insert_id.
  - cbn [for_each unlink_trace]. unfold bind at 1.
    unfold try_except, Path_unlink, logger_info, logger_error, emit,
      get_files, put_files, mbind, M_bind, bind, ret, raise.
    cbn. rewrite Hdir. unfold unlinked. cbn [foldl]. unfold unlink_one at 2 3.
    destruct (es !! name) as [[bytes|]|] eqn:Hnd; cbn.
    + erewrite IH by (cbn; apply lookup_insert_eq).
      cbn. now rewrite insert_insert_eq.
    + erewrite IH by exact Hdir. reflexivity.
    + erewrite IH by exact Hdir. reflexivity.
Qed.

(** [exists] answers for what the map holds, and by the name alone for a
    path that is not there. *)
Lemma exists_run (dir : string) (w : world W) :
  Path_exists dir w =
    match files w !! dir with
    | Some (Directory _) | Some RegularFile => (Ok true, w, [])
    | _ => if exists_raises (files w) dir then (Raise OSError, w, [])
           else (Ok false, w, [])
    end.
Proof.
  unfold Path_exists, exists_raises, lookup_absent, try_except, get_files,
    mbind, M_bind, bind, ret, raise.
  destruct (files w !! dir) as [[| |es]|]; try reflexivity;
    destruct (has_nul dir); try reflexivity;
    destruct (path_refused _ dir); reflexivity.
Qed.

Lemma exists_raises_dir (dir : string) (w : world W) (es : gmap string node) :
  files w !! dir = Some (Directory es) -> exists_raises (files w) dir = false.
Proof. unfold exists_raises. now intros ->. Qed.

(** [clear_cache] for a pattern that [glob] accepts. *)
Lemma clear_run (dir : string) (pattern : option string) (w : world W) :
  str_contains "**" (glob_of pattern) = false ->
  clear_cache dir pattern w =
    match files w !! dir with
    | Some (Directory es) =>
        (Ok tt,
         World (<[dir := Directory (unlinked (names_matching (glob_of pattern) es) es)]>
                  (files w)) (source_state w),
         unlink_trace dir (names_matching (glob_of pattern) es) es)
    | Some RegularFile => (Ok tt, w, [])
    | _ => if exists_raises (files w) dir then (Raise OSError, w, [])
           else (Ok tt, w, [EvLog INFO MsgNoCacheDir])
    end.
Proof.
  intros Hok. unfold clear_cache.
  replace (match pattern with
           | Some (String c p) => Path_glob dir ("*" +:+ String c p +:+ "*")
           | _ => Path_glob dir "*.xlsx"
           end) with (Path_glob (W:=W) dir (glob_of pattern))
    by now destruct pattern as [[]|].
  unfold mbind, M_bind, bind at 1. rewrite exists_run.
  destruct (files w !! dir) as [[| |es]|] eqn:Hdir; cbn [negb];
    try (destruct (exists_raises (files w) dir); reflexivity).
  - unfold bind. rewrite (glob_run _ _ _ Hok).
    unfold entries_at. rewrite Hdir. reflexivity.
  - unfold bind. rewrite (glob_run _ _ _ Hok).
    rewrite (entries_at_dir _ _ _ Hdir).
    now rewrite (unlink_loop_run _ _ _ _ Hdir).
Qed.

(** [list_cache_files]: the [.xlsx] names of the directory, unless
    [exists] raises. *)
Lemma list_run (dir : string) (w : world W) :
  list_cache_files dir w
    = if exists_raises (files w) dir then (Raise OSError, w, [])
      else (Ok (names_matching "*.xlsx" (entries_at (files w) dir)), w, []).
Proof.
  unfold list_cache_files.
  unfold mbind, M_bind, bind at 1. rewrite exists_run.
  unfold entries_at, exists_raises.
  destruct (files w !! dir) as [[| |es]|] eqn:Hdir; cbn [negb andb];
    try (destruct (negb (has_nul dir) && path_refused _ dir); reflexivity);
    rewrite (glob_run dir "*.xlsx" w eq_refl); unfold entries_at;
    now rewrite Hdir.
Qed.

Lemma list_run_dir (dir : string) (w : world W) (es : gmap string node) :
  files w !! dir = Some (Directory es) ->
  list_cache_files dir w = (Ok (names_matching "*.xlsx" es), w, []).
Proof.
  intros Hdir.
  now rewrite list_run, (exists_raises_dir _ _ _ Hdir), (entries_at_dir _ _ _ Hdir).
Qed.

(** What [clear_cache] does, by what its glob selects. *)
Lemma clear_effect (dir : string) (pattern : option string) (w : world W) :
  plain_pattern pattern = true ->
  let r := clear_cache dir pattern w in
  let es := entries_at (files w) dir in
  let es' := entries_at (files (final r)) dir in
  let sel := fun n => Glob.fnmatch n (glob_of pattern) in
  result r = (if exists_raises (files w) dir then Raise OSError else Ok tt)
  /\ (forall n, es' !! n = match es !! n with
                           | Some (File bytes) =>
                               if sel n then None else Some (File bytes)
                           | o => o
                           end)
  /\ (forall d, d <> dir -> files (final r) !! d = files w !! d)
  /\ (forall d n, In (EvUnlink d n) (events r)
                  <-> d = dir /\ is_Some (es !! n) /\ sel n = true)
  /\ (forall n, es !! n = Some SubDir -> sel n = true ->
                In (EvLog ERROR (MsgDeleteFailed dir n IsADirectoryError))
                   (events r)).
Proof.
  intros Hplain. cbn zeta. rewrite (clear_run _ _ _ (glob_of_ok _ Hplain)).
  unfold entries_at.
  destruct (files w !! dir) as [[| |es]|] eqn:Hdir;
    [destruct (exists_raises (files w) dir) eqn:Hraise
    | pose proof (eq_refl : exists_raises (files w) dir
                            = exists_raises (files w) dir) as Hraise;
      unfold exists_raises at 2 in Hraise; rewrite Hdir in Hraise
    | pose proof (exists_raises_dir _ _ _ Hdir) as Hraise
    | destruct (exists_raises (files w) dir) eqn:Hraise];
    cbn [result final events fst snd files]; rewrite ?Hdir, ?Hraise.
  1,2,3,5,6: (split; [reflexivity |]);
    (split; [intros n; now rewrite lookup_empty |]);
    (split; [reflexivity |]);
    (split; [intros d n; rewrite lookup_empty; split;
             [cbn; intuition discriminate
             | intros (_ & [? ?] & _); discriminate] |]);
    intros n; rewrite lookup_empty; discriminate.
  rewrite lookup_insert_eq.
  split; [reflexivity |].
  split.
  { intros n. rewrite unlinked_lookup.
    destruct (es !! n) as [[bytes|]|] eqn:Hnd; try reflexivity.
    destruct (decide (n ∈ names_matching (glob_of pattern) es)) as [Hin|Hin];
      rewrite list_elem_of_In, names_matching_in in Hin.
    - destruct Hin as [_ ->]. reflexivity.
    - destruct (Glob.fnmatch n (glob_of pattern)) eqn:Hsel; [| reflexivity].
      exfalso. apply Hin. rewrite Hnd. eauto. }
  split; [intros d Hd; now apply lookup_insert_ne |].
  split.
  { intros d n. rewrite unlink_trace_unlinks, names_matching_in. tauto. }
  intros n Hnd Hsel. apply unlink_trace_subdir; [| exact Hnd].
  apply names_matching_in. rewrite Hnd. eauto.
Qed.

Lemma glob_of_some (pat : string) :
  pat <> "" -> glob_of (Some pat) = "*" +:+ pat +:+ "*".
Proof. now destruct pat. Qed.

(** C7 (amended). For a cache directory that is there and a non-empty
    pattern without glob special characters, [clear_cache] returns
    normally; it leaves every entry whose name does not contain the
    pattern as it was; it deletes every regular [.xlsx] file whose name
    contains the pattern, whether or not other deletions fail; a
    sub-directory whose name contains the pattern stays, and the failed
    deletion is logged as an error; other directories are untouched; and
    [list_cache_files] afterwards returns exactly the [.xlsx] names of the
    directory as [clear_cache] left it. *)
Theorem clear_by_pattern (dir pat : string) (w : world W)
    (held : gmap string node) :
  files w !! dir = Some (Directory held) ->
  pat <> "" ->
  Glob.literal pat = true ->
  let r := clear_cache dir (Some pat) w in
  let es := entries_at (files w) dir in
  let es' := entries_at (files (final r)) dir in
  result r = Ok tt
  /\ (forall n, str_contains pat n = false -> es' !! n = es !! n)
  /\ (forall n bytes,
        es !! n = Some (File bytes) -> str_endswith ".xlsx" n = true ->
        str_contains pat n = true -> es' !! n = None)
  /\ (forall n,
        es !! n = Some SubDir -> str_contains pat n = true ->
        es' !! n = Some SubDir
        /\ In (EvLog ERROR (MsgDeleteFailed dir n IsADirectoryError))
              (events r))
  /\ (forall d, d <> dir -> files (final r) !! d = files w !! d)
  /\ (exists names,
        result (list_cache_files dir (final r)) = Ok names
        /\ forall n, In n names
                     <-> is_Some (es' !! n) /\ str_endswith ".xlsx" n = true).
Proof.
  intros Hdir Hne Hlit. cbn zeta.
  destruct (clear_effect dir (Some pat) w Hlit) as (E1 & E2 & E3 & _ & E5).
  cbn zeta in E2, E5. rewrite (glob_of_some _ Hne) in E2, E5.
  rewrite (exists_raises_dir _ _ _ Hdir) in E1.
  split; [exact E1 |].
  split.
  { intros n Hn. rewrite E2, (fnmatch_contains _ _ Hlit), Hn.
    now destruct (entries_at (files w) dir !! n) as [[]|]. }
  split.
  { intros n bytes Hnd _ Hn.
    now rewrite E2, Hnd, (fnmatch_contains _ _ Hlit), Hn. }
  split.
  { intros n Hnd Hn. split; [now rewrite E2, Hnd |].
    apply E5; [exact Hnd |]. now rewrite (fnmatch_contains _ _ Hlit). }
  split; [exact E3 |].
  assert (Hdir' : exists es', files (final (clear_cache dir (Some pat) w)) !! dir
                              = Some (Directory es')).
  { rewrite (clear_run _ _ _ (glob_of_ok (Some pat) Hlit)), Hdir.
    cbn [final fst snd files]. rewrite lookup_insert_eq. eauto. }
  destruct Hdir' as (es' & Hdir').
  rewrite (list_run_dir _ _ _ Hdir'), (entries_at_dir _ _ _ Hdir').
  eexists. split; [reflexivity |].
  intros n. rewrite names_matching_in, fnmatch_endswith_xlsx. reflexivity.
Qed.

(** C10 (amended). Which entries [clear_cache] tries to delete depends on
    the pattern. With no pattern they are the entries whose name ends in
    [.xlsx], and a regular file is deleted exactly when its name does.
    With a non-empty pattern without glob special characters they are the
    entries whose name contains the pattern, whatever the extension, and a
    regular file is deleted exactly when its name contains the pattern,
    be it a cached artifact or not. *)
Theorem clear_selection (dir pat : string) (w : world W) :
  pat <> "" ->
  Glob.literal pat = true ->
  let es := entries_at (files w) dir in
  let r0 := clear_cache dir None w in
  let rp := clear_cache dir (Some pat) w in
  (forall n, In (EvUnlink dir n) (events r0)
             <-> is_Some (es !! n) /\ str_endswith ".xlsx" n = true)
  /\ (forall n, In (EvUnlink dir n) (events rp)
                <-> is_Some (es !! n) /\ str_contains pat n = true)
  /\ (forall n bytes, es !! n = Some (File bytes) ->
        entries_at (files (final r0)) dir !! n
          = (if str_endswith ".xlsx" n then None else Some (File bytes))
        /\ entries_at (files (final rp)) dir !! n
            = (if str_contains pat n then None else Some (File bytes))).
Proof.
  intros Hne Hlit. cbn zeta.
  destruct (clear_effect dir None w eq_refl) as (_ & N2 & _ & N4 & _).
  destruct (clear_effect dir (Some pat) w Hlit) as (_ & P2 & _ & P4 & _).
  cbn zeta in N2, N4, P2, P4. rewrite (glob_of_some _ Hne) in P2, P4.
  cbn [glob_of] in N2, N4.
  split.
  { intros n. rewrite N4, fnmatch_endswith_xlsx. tauto. }
  split.
  { intros n. rewrite P4, (fnmatch_contains _ _ Hlit). tauto. }
  intros n bytes Hnd. split.
  - now rewrite N2, Hnd, fnmatch_endswith_xlsx.
  - now rewrite P2, Hnd, (fnmatch_contains _ _ Hlit).
Qed.

End AdminFacts.

(** ** The boundary of the public operations *)

Section Boundary.

Context {Table W : Type}.
Variable df_empty : Table -> bool.
Variable to_excel : Table -> string.
Variable read_excel : string -> option Table.
Variable source : string -> string -> W -> source_result Table * W.

(** What the public operations do with a failure. Once the cache directory
    is there or can be made and the artifact is there or has a path that
    the system accepts, the query never raises: a failed cache read, a
    failing source and a failed write end in a log entry and the query
    still returns, [None] with an error log when the source raised. Two
    calls of the query stand outside every [try]. One is [mkdir]: when the
    directory cannot be made (its parent is missing, the path is a regular
    file, or the system refuses its name) its exception reaches the
    caller, and nothing is logged. The other is the [exists] of line 42:
    with no artifact and an artifact path that the system refuses, its
    [OSError] reaches the caller before the source is asked.
    [list_cache_files], and [clear_cache] when given no pattern or one
    without glob special characters, raise only when their own [exists]
    does. *)
Lemma failures_at_boundary (start_time end_time dir : string)
    (force : bool) (pattern : option string) (w : world W) :
  let q := query_data_with_cache df_empty to_excel read_excel source
             start_time end_time dir force w in
  let name := cache_filename start_time end_time in
  (can_mkdir (files w) dir = true ->
   (entries_at (files w) dir !! name = None -> path_fits dir name = true) ->
   (exists v, result q = Ok v)
   /\ (count_events is_source_call (events q) <> 0 ->
       fst (source start_time end_time (source_state w)) = SrcRaises ->
       result q = Ok None
       /\ In (EvLog ERROR (MsgQueryFailed SourceError)) (events q)))
  /\ (can_mkdir (files w) dir = false ->
      result q = Raise (mkdir_error (files w) dir) /\ events q = [])
  /\ (can_mkdir (files w) dir = true ->
      entries_at (files w) dir !! name = None ->
      path_fits dir name = false ->
      result q = Raise OSError
      /\ count_events is_source_call (events q) = 0)
  /\ (exists_raises (files w) dir = false ->
      exists names, result (list_cache_files dir w) = Ok names)
  /\ (plain_pattern pattern = true ->
      result (clear_cache dir pattern w)
        = if exists_raises (files w) dir then Raise OSError else Ok tt).
Proof.
  cbn zeta.
  destruct (query_outcome df_empty to_excel read_excel source
              start_time end_time dir force w) as (Q1 & Q2 & Q3).
  split; [exact Q1 |]. split; [exact Q2 |]. split; [exact Q3 |].
  split.
  - intros Hex. rewrite list_run, Hex. eauto.
  - intros Hplain. now destruct (clear_effect dir pattern w Hplain).
Qed.

End Boundary.

(** ** The theorems at concrete inputs *)

Lemma cache_hit_skips_source_witness :
  entries_at (files Demo.warm) "./cache" !! cache_filename "2024-01-01" "2024-01-10"
    = Some (File "PKold")
  /\ Demo.read_excel "PKold" = Some "old"
  /\ result (Demo.query "2024-01-01" "2024-01-10" "./cache" false Demo.warm)
      = Ok (Some "old")
  /\ count_events is_source_call
       (events (Demo.query "2024-01-01" "2024-01-10" "./cache" false Demo.warm))
     = 0.
Proof.
  assert (H1 : entries_at (files Demo.warm) "./cache"
                 !! cache_filename "2024-01-01" "2024-01-10"
               = Some (File "PKold")) by (vm_compute; reflexivity).
  assert (H2 : Demo.read_excel "PKold" = Some "old") by reflexivity.
  split; [exact H1 |]. split; [exact H2 |].
  destruct (cache_hit_skips_source Demo.df_empty Demo.to_excel Demo.read_excel
              Demo.source _ _ _ _ _ _ H1 H2) as (A & B & _).
  split; [exact A | exact B].
Defined.


Lemma corrupt_cache_falls_back_witness :
  entries_at (files Demo.corrupt) "./cache"
    !! cache_filename "2024-01-01" "2024-01-10" = Some (File "junk")
  /\ Demo.read_excel "junk" = None
  /\ result (Demo.query "2024-01-01" "2024-01-10" "./cache" false Demo.corrupt)
      = Ok (Some "rows").
Proof.
  assert (H1 : entries_at (files Demo.corrupt) "./cache"
                 !! cache_filename "2024-01-01" "2024-01-10"
               = Some (File "junk")) by (vm_compute; reflexivity).
  assert (H2 : Demo.read_excel "junk" = None) by reflexivity.
  split; [exact H1 |]. split; [exact H2 |].
  exact (proj1 (corrupt_cache_falls_back Demo.df_empty Demo.to_excel
                  Demo.read_excel Demo.source _ _ _ _ _ H1 H2)).
Defined.

Lemma source_failure_gives_none_witness :
  count_events is_source_call
    (events (Demo.query "2024-01-01" "2024-01-10" "./cache" false Demo.failing))
    <> 0
  /\ returned Demo.df_empty
       (fst (Demo.source "2024-01-01" "2024-01-10" (source_state Demo.failing)))
     = None
  /\ result (Demo.query "2024-01-01" "2024-01-10" "./cache" false Demo.failing)
      = Ok None
  /\ count_events is_write
       (events (Demo.query "2024-01-01" "2024-01-10" "./cache" false Demo.failing))
     = 0.
Proof.
  assert (H1 : count_events is_source_call
                 (events (Demo.query "2024-01-01" "2024-01-10" "./cache" false
                            Demo.failing)) <> 0)
    by (vm_compute; discriminate).
  assert (H2 : returned Demo.df_empty
                 (fst (Demo.source "2024-01-01" "2024-01-10"
                         (source_state Demo.failing))) = None) by reflexivity.
  split; [exact H1 |]. split; [exact H2 |].
  destruct (source_failure_gives_none Demo.df_empty Demo.to_excel
              Demo.read_excel Demo.source _ _ _ _ _ H1 H2) as (A & B & _).
  split; [exact A | exact B].
Defined.

Lemma repeated_query_same_table_witness :
  can_mkdir (files Demo.cold) "./cache" = true
  /\ can_mkdir (files Demo.warm) "./cache" = true
  /\ (entries_at (files Demo.cold) "./cache"
        !! cache_filename "2024-01-01" "2024-01-10" = None
      /\ path_fits "./cache" (cache_filename "2024-01-01" "2024-01-10") = true)
  /\ (let r1 := Demo.query "2024-01-01" "2024-01-10" "./cache" false Demo.cold in
      let r2 := Demo.query "2024-01-01" "2024-01-10" "./cache" false (final r1) in
      result r1 = Ok (Some "rows") /\ result r2 = Ok (Some "rows")
      /\ count_events is_write (events r1) = 1
      /\ count_events is_write (events r2) = 0)
  /\ (let r1 := Demo.query "2024-01-01" "2024-01-10" "./cache" false Demo.warm in
      let r2 := Demo.query "2024-01-01" "2024-01-10" "./cache" false (final r1) in
      result r1 = Ok (Some "old") /\ result r2 = Ok (Some "old")
      /\ count_events is_write (events r1) = 0
      /\ count_events is_write (events r2) = 0).
Proof.
  assert (H1 : can_mkdir (files Demo.cold) "./cache" = true)
    by (vm_compute; reflexivity).
  assert (H2 : can_mkdir (files Demo.warm) "./cache" = true)
    by (vm_compute; reflexivity).
  assert (H3 : entries_at (files Demo.cold) "./cache"
                 !! cache_filename "2024-01-01" "2024-01-10" = None
               /\ path_fits "./cache" (cache_filename "2024-01-01" "2024-01-10")
                  = true) by (split; vm_compute; reflexivity).
  split; [exact H1 |]. split; [exact H2 |]. split; [exact H3 |]. split.
  - destruct (proj2 (repeated_query_same_table Demo.df_empty Demo.to_excel
                       Demo.read_excel Demo.source "2024-01-01" "2024-01-10"
                       _ _ H1) "rows" [])
      as (A & B & C & D & _).
    + left. exact H3.
    + reflexivity.
    + reflexivity.
    + reflexivity.
    + cbn zeta. repeat split; assumption.
  - destruct (proj1 (repeated_query_same_table Demo.df_empty Demo.to_excel
                       Demo.read_excel Demo.source "2024-01-01" "2024-01-10"
                       _ _ H2) "PKold" "old")
      as (A & B & C & D).
    + vm_compute. reflexivity.
    + reflexivity.
    + cbn zeta. repeat split; assumption.
Defined.

Lemma clear_by_pattern_witness :
  files Demo.mixed !! "./cache"
    = Some (Directory (entries_at (files Demo.mixed) "./cache"))
  /\ "2024-01" <> ""
  /\ Glob.literal "2024-01" = true
  /\ result (Demo.clear "./cache" (Some "2024-01") Demo.mixed) = Ok tt
  /\ entries_at (files (final (Demo.clear "./cache" (Some "2024-01") Demo.mixed)))
       "./cache" !! "other.xlsx"
     = entries_at (files Demo.mixed) "./cache" !! "other.xlsx".
Proof.
  assert (H0 : files Demo.mixed !! "./cache"
               = Some (Directory (entries_at (files Demo.mixed) "./cache")))
    by (vm_compute; reflexivity).
  assert (H1 : "2024-01" <> "") by discriminate.
  assert (H2 : Glob.literal "2024-01" = true) by reflexivity.
  split; [exact H0 |]. split; [exact H1 |]. split; [exact H2 |].
  destruct (clear_by_pattern (W:=Demo.script) "./cache" "2024-01" Demo.mixed
              _ H0 H1 H2) as (A & B & _).
  split; [exact A |]. apply B. reflexivity.
Defined.

Lemma clear_selection_witness :
  "2024-01" <> ""
  /\ Glob.literal "2024-01" = true
  /\ (In (EvUnlink "./cache" "notes-2024-01.txt")
         (events (Demo.clear "./cache" (Some "2024-01") Demo.mixed))
      <-> is_Some (entries_at (files Demo.mixed) "./cache" !! "notes-2024-01.txt")
          /\ str_contains "2024-01" "notes-2024-01.txt" = true).
Proof.
  assert (H1 : "2024-01" <> "") by discriminate.
  assert (H2 : Glob.literal "2024-01" = true) by reflexivity.
  split; [exact H1 |]. split; [exact H2 |].
  destruct (clear_selection (W:=Demo.script) "./cache" "2024-01" Demo.mixed
              H1 H2) as (_ & B & _).
  apply B.
Defined.

(** ** Where the specification and the code part *)

(** C1 (as stated) fails: with a valid artifact already in the cache, two
    non-forced queries return the same table but no write occurs at all,
    neither on the first call nor on the second. *)
Lemma warm_cache_writes_nothing :
  let r1 := Demo.query "2024-01-01" "2024-01-10" "./cache" false Demo.warm in
  let r2 := Demo.query "2024-01-01" "2024-01-10" "./cache" false (final r1) in
  result r1 = Ok (Some "old") /\ result r2 = Ok (Some "old")
  /\ count_events is_write (events r1) <> 1
  /\ count_events is_write (events r1 ++ events r2)%list = 0.
Proof. vm_compute. repeat split. discriminate. Qed.


(** C7 (as stated) fails: the pattern is a glob, not a substring. With the
    pattern ["?"] the file [abc.xlsx], whose name does not contain a
    question mark, is deleted. *)
Lemma clear_wildcard_deletes_other_file :
  let w : world Demo.script :=
    World (Demo.dir_with [("abc.xlsx", File "PKrows")]) [] in
  str_contains "?" "abc.xlsx" = false
  /\ entries_at (files w) "./cache" !! "abc.xlsx" = Some (File "PKrows")
  /\ entries_at (files (final (Demo.clear "./cache" (Some "?") w))) "./cache"
       !! "abc.xlsx" = None.
Proof. vm_compute. repeat split. Qed.

(** C8. The query at a cache directory whose parent does not exist: the
    [mkdir] of line 33 stands outside every [try], so its
    [FileNotFoundError] is raised to the caller instead of being logged and
    turned into [None], and the data source is never asked. *)
Lemma query_raises_without_parent :
  let r := Demo.query "2024-01-01" "2024-01-10" "./missing/cache" false
             Demo.orphan in
  files Demo.orphan !! "./missing/cache" = Some Orphan
  /\ result r = Raise FileNotFoundError
  /\ events r = []
  /\ final r = Demo.orphan.
Proof. vm_compute. repeat split. Qed.

(** C10 (as stated) fails: a pattern with a bracket is a character class.
    The file [a[b]c.txt] contains the pattern ["a[b]c"], yet it is not
    selected: no unlink is attempted and the file stays. *)
Lemma bracket_pattern_misses_file :
  let w : world Demo.script :=
    World (Demo.dir_with [("a[b]c.txt", File "x")]) [] in
  let r := Demo.clear "./cache" (Some "a[b]c") w in
  str_contains "a[b]c" "a[b]c.txt" = true
  /\ count_events is_unlink (events r) = 0
  /\ entries_at (files (final r)) "./cache" !! "a[b]c.txt" = Some (File "x").
Proof. vm_compute. repeat split. Qed.

(** ** More on the cache key *)

Section KeyFacts.

Lemma delete_idempotent (s : string) :
  delete_outside_allow_list (delete_outside_allow_list s)
    = delete_outside_allow_list s.
Proof.
  induction s as [|c s IH]; [reflexivity |].
  cbn [delete_outside_allow_list].
  destruct (allow_listed c) eqn:Hc; [| exact IH].
  cbn [delete_outside_allow_list]. now rewrite Hc, IH.
Qed.

Lemma delete_append (a b : string) :
  delete_outside_allow_list (a +:+ b)
    = delete_outside_allow_list a +:+ delete_outside_allow_list b.
Proof.
  induction a as [|c a IH]; [reflexivity |].
  rewrite append_cons. cbn [delete_outside_allow_list].
  destruct (allow_listed c); [| exact IH].
  now rewrite append_cons, IH.
Qed.

Lemma allow_listed_plain (c : ascii) :
  allow_listed c = true ->
  Ascii.eqb "*" c = false /\ Ascii.eqb "?" c = false
  /\ Ascii.eqb "[" c = false /\ Ascii.eqb "/" c = false.
Proof.
  intros Hc.
  repeat split; (destruct (Ascii.eqb _ c) eqn:He; [| reflexivity]);
    apply Ascii.eqb_eq in He; subst c; discriminate.
Qed.

Lemma has_char_false (c : ascii) (s : string) :
  allow_listed c = false -> str_has_char c (delete_outside_allow_list s) = false.
Proof.
  intros Hc. destruct (str_has_char c _) eqn:H; [| reflexivity].
  apply deleted_chars_allowed in H. congruence.
Qed.

(** X1. Sanitizing is idempotent, so a range and its sanitized form have
    the same cache file: [safe_time (safe_time s) = safe_time s], and the
    file name of [(safe_time start, safe_time end)] is that of
    [(start, end)]. *)
Theorem sanitized_range_same_file (start_time end_time : string) :
  safe_time (safe_time start_time) = safe_time start_time
  /\ cache_filename (safe_time start_time) (safe_time end_time)
     = cache_filename start_time end_time.
Proof.
  unfold cache_filename. rewrite !safe_time_deletes, !delete_idempotent.
  now split.
Qed.

(** X2. Sanitizing works character by character: the sanitized form of a
    concatenation is the concatenation of the sanitized forms; a string is
    left as it is exactly when all its characters are on the allow-list;
    and it becomes empty exactly when none is. *)
Theorem safe_time_by_character (a b : string) :
  safe_time (a +:+ b) = safe_time a +:+ safe_time b
  /\ (safe_time a = a
      <-> forall c, str_has_char c a = true -> allow_listed c = true)
  /\ (safe_time a = ""
      <-> forall c, str_has_char c a = true -> allow_listed c = false).
Proof.
  rewrite !safe_time_deletes. split; [apply delete_append |]. split.
  - split.
    + intros Ha c Hc. rewrite <- Ha in Hc. now apply deleted_chars_allowed in Hc.
    + induction a as [|x a IH]; [reflexivity |]. intros Hall.
      cbn [delete_outside_allow_list].
      rewrite (Hall x) by (cbn; now rewrite Ascii.eqb_refl).
      f_equal. apply IH. intros c Hc. apply Hall. cbn. rewrite Hc.
      now rewrite orb_true_r.
  - induction a as [|x a IH]; [split; [intros _ c; discriminate | reflexivity] |].
    cbn [delete_outside_allow_list str_has_char].
    destruct (allow_listed x) eqn:Hx; split.
    + discriminate.
    + intros Hall. specialize (Hall x). rewrite Ascii.eqb_refl in Hall.
      cbn in Hall. specialize (Hall eq_refl). congruence.
    + intros Ha c [Hc | Hc]%orb_true_iff.
      * apply Ascii.eqb_eq in Hc. now subst.
      * now apply IH.
    + intros Hall. apply IH. intros c Hc. apply Hall. rewrite Hc.
      now rewrite orb_true_r.
Qed.

Lemma filename_endswith_xlsx (start_time end_time : string) :
  str_endswith ".xlsx" (cache_filename start_time end_time) = true.
Proof.
  apply endswith_true_iff. unfold cache_filename.
  exists (safe_time start_time +:+ "_" +:+ safe_time end_time).
  now rewrite !append_assoc.
Qed.

(** X3. Every cache file name is a name of the kind the administration
    looks for: it ends in [.xlsx], so the glob [*.xlsx] of
    [list_cache_files] and of [clear_cache] without pattern selects it; and
    it holds no [/], so it names an entry of the cache directory itself. *)
Theorem cache_filename_is_artifact_name (start_time end_time : string) :
  str_endswith ".xlsx" (cache_filename start_time end_time) = true
  /\ Glob.fnmatch (cache_filename start_time end_time) "*.xlsx" = true
  /\ str_has_char "/" (cache_filename start_time end_time) = false
  /\ cache_filename start_time end_time <> "".
Proof.
  pose proof (filename_endswith_xlsx start_time end_time) as Hend.
  split; [exact Hend |]. split; [now rewrite fnmatch_endswith_xlsx |]. split.
  - destruct (str_has_char "/" _) eqn:H; [| reflexivity].
    apply filename_chars_allowed in H. discriminate.
  - intros Hnil. rewrite Hnil in Hend. discriminate.
Qed.

(** A sanitized string has no character that is special for [glob]. *)
Lemma safe_time_literal (s : string) : Glob.literal (safe_time s) = true.
Proof.
  rewrite safe_time_deletes. unfold Glob.literal.
  rewrite !has_char_false by reflexivity. reflexivity.
Qed.

Lemma filename_contains_start (start_time end_time : string) :
  str_contains (safe_time start_time) (cache_filename start_time end_time)
    = true.
Proof.
  apply contains_true_iff. exists "", ("_" +:+ safe_time end_time +:+ ".xlsx").
  reflexivity.
Qed.

Lemma filename_contains_end (start_time end_time : string) :
  str_contains (safe_time end_time) (cache_filename start_time end_time)
    = true.
Proof.
  apply contains_true_iff. exists (safe_time start_time +:+ "_"), ".xlsx".
  unfold cache_filename. now rewrite !append_assoc.
Qed.

End KeyFacts.

(** ** Queries one after another *)

Section QuerySequences.

Local Open Scope list_scope.

Context {Table W : Type}.
Variable df_empty : Table -> bool.
Variable to_excel : Table -> string.
Variable read_excel : string -> option Table.
Variable source : string -> string -> W -> source_result Table * W.

Local Abbreviation query :=
  (query_data_with_cache df_empty to_excel read_excel source).

(** A query that misses the cache (or is forced), gets a non-empty table
    and finds the artifact path free of a directory: it stores the table. *)
Lemma store_run (start_time end_time dir : string) (force : bool)
    (w : world W) (t : Table) (s : W) :
  can_mkdir (files w) dir = true ->
  path_fits dir (cache_filename start_time end_time) = true ->
  (if force then None
   else entries_at (files w) dir !! cache_filename start_time end_time) = None ->
  entries_at (files w) dir !! cache_filename start_time end_time
    <> Some SubDir ->
  source start_time end_time (source_state w) = (SrcTable t, s) ->
  df_empty t = false ->
  query start_time end_time dir force w =
    (Ok (Some t),
     World (<[dir := Directory
                       (<[cache_filename start_time end_time
                            := File (to_excel t)]>
                          (entries_at (files w) dir))]>
              (files (made_dir dir w))) s,
     mkdir_events dir w ++
     [EvLog INFO (MsgQueryStart start_time end_time);
      EvSource start_time end_time;
      EvWrite dir (cache_filename start_time end_time);
      EvLog INFO (MsgCached dir (cache_filename start_time end_time))]).
Proof.
  intros Hcan Hfit Hmiss Hsub Hsrc Hemp.
  rewrite (query_run _ _ _ _ _ _ _ _ _ Hcan (fun _ => Hfit)). cbn zeta.
  rewrite Hmiss.
  rewrite fetch_run, made_dir_source, Hsrc, Hemp,
    (made_dir_lookup _ _ Hcan). cbn zeta.
  destruct (entries_at (files w) dir !! cache_filename start_time end_time)
    as [[bytes|]|]; try reflexivity.
  now contradiction Hsub.
Qed.

Lemma fetch_calls_source_once (start_time end_time dir name : string)
    (w : world W) :
  count_events is_source_call
    (events (query_and_cache df_empty to_excel source
               start_time end_time dir name w)) = 1.
Proof.
  rewrite fetch_run. cbn zeta.
  destruct (source start_time end_time (source_state w)) as [[| |t] s];
    [| | destruct (df_empty t);
         [| destruct (files w !! dir) as [[| |es]|];
            [| | destruct (es !! name) as [[]|] |]]];
    reflexivity.
Qed.

Lemma stored_lookup (dir name : string) (bytes : string)
    (es : gmap string node) (fs : gmap string path_state) (s : W) :
  entries_at (files (World (<[dir := Directory (<[name := File bytes]> es)]> fs) s))
    dir !! name = Some (File bytes).
Proof.
  cbn [files]. unfold entries_at. rewrite lookup_insert_eq.
  apply lookup_insert_eq.
Qed.

(** X4. Two ranges with the same cache file name share one artifact. With
    a cache directory that is there or can be made and an artifact path
    that the system accepts: once a query for the first range has stored
    its table, a non-forced query for the second range returns that table
    and never asks the source about the second range. *)
Theorem aliased_ranges_share_cache
    (start1 end1 start2 end2 dir : string) (w : world W) (t : Table) (s : W) :
  cache_filename start1 end1 = cache_filename start2 end2 ->
  can_mkdir (files w) dir = true ->
  path_fits dir (cache_filename start1 end1) = true ->
  entries_at (files w) dir !! cache_filename start1 end1 = None ->
  source start1 end1 (source_state w) = (SrcTable t, s) ->
  df_empty t = false ->
  read_excel (to_excel t) = Some t ->
  let r1 := query start1 end1 dir false w in
  let r2 := query start2 end2 dir false (final r1) in
  result r1 = Ok (Some t)
  /\ result r2 = Ok (Some t)
  /\ count_events is_source_call (events r2) = 0
  /\ final r2 = final r1.
Proof.
  intros Hname Hcan Hfit Hnone Hsrc Hemp Hround. cbn zeta.
  rewrite (store_run _ _ _ false _ _ _ Hcan Hfit Hnone) by
    (first [exact Hsrc | exact Hemp | rewrite Hnone; discriminate]).
  cbn [result final events fst snd].
  rewrite (cache_hit_run _ _ _ _ start2 end2 dir _ (to_excel t) t);
    [repeat split | | exact Hround].
  rewrite <- Hname. apply stored_lookup.
Qed.

(** X5. A write that fails does not fail the query. When a directory sits
    at the artifact path and the source answers with a non-empty table, the
    query returns that table after one write attempt, logs the failure as
    an error, and leaves the file system as it was; so the next non-forced
    query has to ask the source again. *)
Theorem write_failure_tolerated (start_time end_time dir : string)
    (force : bool) (w : world W) (t : Table) (s : W) :
  entries_at (files w) dir !! cache_filename start_time end_time
    = Some SubDir ->
  source start_time end_time (source_state w) = (SrcTable t, s) ->
  df_empty t = false ->
  let r1 := query start_time end_time dir force w in
  let r2 := query start_time end_time dir false (final r1) in
  result r1 = Ok (Some t)
  /\ final r1 = World (files w) s
  /\ count_events is_write (events r1) = 1
  /\ In (EvLog ERROR (MsgSaveFailed IsADirectoryError)) (events r1)
  /\ count_events is_source_call (events r2) = 1.
Proof.
  intros Hnode Hsrc Hemp. cbn zeta.
  destruct (entries_at_some _ _ _ _ Hnode) as (es & Hdir & Hes).
  destruct (made_dir_id _ _ _ Hdir) as (Hw & Hev & Hcan).
  assert (Hrun : exists t1,
    query start_time end_time dir force w
      = (Ok (Some t), World (files w) s,
         t1 ++ [EvLog INFO (MsgQueryStart start_time end_time);
                EvSource start_time end_time;
                EvWrite dir (cache_filename start_time end_time);
                EvLog ERROR (MsgSaveFailed IsADirectoryError)])
    /\ count_events is_write t1 = 0).
  { rewrite (query_run _ _ _ _ _ _ _ _ _ Hcan (found_fits _ _ _ _ Hnode)).
    cbn zeta.
    rewrite Hnode, Hw, Hev, fetch_run, Hsrc, Hemp, Hdir, Hes. cbn zeta.
    destruct force; cbn [cached app];
      [exists []
      | exists [EvLog INFO (MsgReadCache dir (cache_filename start_time end_time));
                EvRead dir (cache_filename start_time end_time);
                EvLog ERROR (MsgReadCacheFailed IsADirectoryError)]];
      (split; reflexivity). }
  destruct Hrun as (t1 & -> & Ht1). cbn [result final events fst snd].
  split; [reflexivity |]. split; [reflexivity |].
  split; [rewrite count_app, Ht1; reflexivity |].
  split; [apply in_or_app; right; cbn; tauto |].
  assert (Hdir' : files (World (files w) s) !! dir = Some (Directory es))
    by exact Hdir.
  destruct (made_dir_id _ _ _ Hdir') as (Hw' & Hev' & Hcan').
  rewrite (query_run _ _ _ _ _ _ _ _ _ Hcan' (found_fits _ _ _ _ Hnode)).
  cbn zeta.
  rewrite Hw', Hev'. cbn [files]. rewrite Hnode. cbn [cached].
  pose proof (fetch_calls_source_once start_time end_time dir
                (cache_filename start_time end_time) (World (files w) s))
    as Hone.
  destruct (query_and_cache _ _ _ _ _ _ _ _) as [[r w'] t2].
  cbn [events snd] in *. rewrite !count_app, Hone. reflexivity.
Qed.

Lemma fetch_result (start_time end_time dir name : string) (w : world W) :
  result (query_and_cache df_empty to_excel source
            start_time end_time dir name w)
    = Ok (returned df_empty (fst (source start_time end_time (source_state w)))).
Proof.
  rewrite fetch_run. cbn zeta.
  destruct (source start_time end_time (source_state w)) as [[| |t] s];
    cbn [fst returned];
    [| | destruct (df_empty t);
         [| destruct (files w !! dir) as [[| |es]|];
            [| | destruct (es !! name) as [[]|] |]]];
    reflexivity.
Qed.

(** A query that misses the cache and gets nothing from the source leaves
    the directory made and nothing else. *)
Lemma nothing_run (start_time end_time dir : string) (force : bool)
    (w : world W) :
  can_mkdir (files w) dir = true ->
  path_fits dir (cache_filename start_time end_time) = true ->
  (if force then None
   else entries_at (files w) dir !! cache_filename start_time end_time) = None ->
  returned df_empty (fst (source start_time end_time (source_state w))) = None ->
  let r := query start_time end_time dir force w in
  result r = Ok None
  /\ final r = World (files (made_dir dir w))
                     (snd (source start_time end_time (source_state w))).
Proof.
  intros Hcan Hfit Hmiss Hnone. cbn zeta.
  rewrite (query_run _ _ _ _ _ _ _ _ _ Hcan (fun _ => Hfit)). cbn zeta.
  rewrite Hmiss.
  rewrite fetch_run, made_dir_source. cbn zeta.
  destruct (source start_time end_time (source_state w)) as [[| |t] s];
    cbn [fst snd returned] in *;
    [| | destruct (df_empty t); [| discriminate]];
    now split.
Qed.

Lemma made_dir_entries (dir d : string) (w : world W) :
  entries_at (files (made_dir dir w)) d = entries_at (files w) d.
Proof.
  unfold made_dir, entries_at.
  destruct (files w !! dir) as [[| |es]|] eqn:Hdir; try reflexivity.
  cbn [files]. destruct (decide (d = dir)) as [->|Hne].
  - now rewrite lookup_insert_eq, Hdir.
  - now rewrite lookup_insert_ne.
Qed.

Lemma made_dir_can (dir : string) (w : world W) (s : W) :
  can_mkdir (files w) dir = true ->
  can_mkdir (files (World (files (made_dir dir w)) s)) dir = true.
Proof.
  intros Hcan. cbn [files]. unfold can_mkdir.
  now rewrite (made_dir_lookup _ _ Hcan).
Qed.

(** X6. An empty answer is not cached. With a cache directory that is
    there or can be made and an artifact path that the system accepts:
    when a query finds no artifact and the source raises, returns [None]
    or returns an empty table, the query returns [None] and the next
    non-forced query finds no artifact either: it asks the source again,
    with the state the first call left, and returns what the source gives
    then. *)
Theorem empty_result_not_cached (start_time end_time dir : string)
    (force : bool) (w : world W) :
  can_mkdir (files w) dir = true ->
  path_fits dir (cache_filename start_time end_time) = true ->
  entries_at (files w) dir !! cache_filename start_time end_time = None ->
  returned df_empty (fst (source start_time end_time (source_state w))) = None ->
  let r1 := query start_time end_time dir force w in
  let r2 := query start_time end_time dir false (final r1) in
  result r1 = Ok None
  /\ entries_at (files (final r1)) dir !! cache_filename start_time end_time
     = None
  /\ count_events is_source_call (events r2) = 1
  /\ result r2
     = Ok (returned df_empty
             (fst (source start_time end_time
                     (snd (source start_time end_time (source_state w)))))).
Proof.
  intros Hcan Hfit Hnone Hret. cbn zeta.
  assert (Hmiss : (if force then None
                   else entries_at (files w) dir
                          !! cache_filename start_time end_time) = None)
    by now destruct force.
  destruct (nothing_run _ _ _ _ _ Hcan Hfit Hmiss Hret) as [-> ->].
  split; [reflexivity |].
  assert (Hnone' : entries_at
            (files (World (files (made_dir dir w))
                      (snd (source start_time end_time (source_state w)))))
            dir !! cache_filename start_time end_time = None)
    by (cbn [files]; now rewrite made_dir_entries).
  split; [exact Hnone' |].
  rewrite (query_run _ _ _ _ _ _ _ _ _ (made_dir_can _ _ _ Hcan)
             (fun _ => Hfit)).
  cbn zeta. rewrite Hnone'.
  pose proof (fetch_calls_source_once start_time end_time dir
                (cache_filename start_time end_time)
                (made_dir dir (World (files (made_dir dir w))
                   (snd (source start_time end_time (source_state w))))))
    as Hone.
  pose proof (fetch_result start_time end_time dir
                (cache_filename start_time end_time)
                (made_dir dir (World (files (made_dir dir w))
                   (snd (source start_time end_time (source_state w))))))
    as Hres.
  rewrite made_dir_source in Hres. cbn [source_state] in Hres.
  destruct (query_and_cache _ _ _ _ _ _ _ _) as [[r w'] t2].
  cbn [result events fst snd] in *. split; [| exact Hres].
  rewrite count_app, Hone.
  now rewrite (mkdir_events_count is_source_call) by reflexivity.
Qed.

(** X7. Forcing a refresh replaces what later queries see. With a cache
    directory that is there or can be made, an artifact path that the
    system accepts and that is free of a directory, a forced query that
    gets a non-empty table [t] stores it over whatever artifact was there;
    provided the sheet of [t] reads back as [t], the next non-forced query
    returns [t] without asking the source. *)
Theorem refresh_then_query (start_time end_time dir : string)
    (w : world W) (t : Table) (s : W) :
  can_mkdir (files w) dir = true ->
  path_fits dir (cache_filename start_time end_time) = true ->
  entries_at (files w) dir !! cache_filename start_time end_time
    <> Some SubDir ->
  source start_time end_time (source_state w) = (SrcTable t, s) ->
  df_empty t = false ->
  read_excel (to_excel t) = Some t ->
  let r1 := query start_time end_time dir true w in
  let r2 := query start_time end_time dir false (final r1) in
  result r1 = Ok (Some t)
  /\ entries_at (files (final r1)) dir !! cache_filename start_time end_time
     = Some (File (to_excel t))
  /\ result r2 = Ok (Some t)
  /\ count_events is_source_call (events r2) = 0.
Proof.
  intros Hcan Hfit Hsub Hsrc Hemp Hround. cbn zeta.
  rewrite (store_run _ _ _ true _ _ _ Hcan Hfit eq_refl Hsub Hsrc Hemp).
  cbn [result final events fst snd].
  split; [reflexivity |]. split; [apply stored_lookup |].
  rewrite (cache_hit_run _ _ _ _ start_time end_time dir _ (to_excel t) t);
    [now split | apply stored_lookup | exact Hround].
Qed.

(** The directory is there once the second [try] has run on a directory. *)
Lemma fetch_keeps_directory (start_time end_time dir name : string)
    (w : world W) (es : gmap string node) :
  files w !! dir = Some (Directory es) ->
  exists es',
    files (final (query_and_cache df_empty to_excel source
                    start_time end_time dir name w)) !! dir
      = Some (Directory es')
    /\ (result (query_and_cache df_empty to_excel source
                  start_time end_time dir name w) <> Ok None ->
        is_Some (es' !! name)).
Proof.
  intros Hdir. rewrite fetch_run. cbn zeta. rewrite Hdir.
  destruct (source start_time end_time (source_state w)) as [[| |t] s];
    [| | destruct (df_empty t);
         [| destruct (es !! name) as [[bytes|]|] eqn:Hnd]];
    cbn [result final fst snd files];
    try (exists es; split; [exact Hdir | congruence]).
  - eexists. split; [apply lookup_insert_eq |]. intros _.
    rewrite lookup_insert_eq. eauto.
  - exists es. split; [exact Hdir |]. intros _. rewrite Hnd. eauto.
  - eexists. split; [apply lookup_insert_eq |]. intros _.
    rewrite lookup_insert_eq. eauto.
Qed.

(** X8. The query returns normally exactly when the cache directory is
    there or can be made and the artifact is there or has a path that the
    system accepts. Whenever the directory is there or can be made it is
    there afterwards, whatever the source did and even when [exists] has
    raised; so no later query on that world has to make it again, and a
    later query for an artifact path that the system accepts returns
    normally. *)
Theorem query_makes_directory (start_time end_time dir : string)
    (force : bool) (w : world W) :
  let r := query start_time end_time dir force w in
  let name := cache_filename start_time end_time in
  ((exists v, result r = Ok v)
   <-> can_mkdir (files w) dir = true
       /\ (entries_at (files w) dir !! name = None
           -> path_fits dir name = true))
  /\ (can_mkdir (files w) dir = true ->
      (exists es, files (final r) !! dir = Some (Directory es))
      /\ forall start' end' force',
           mkdir_events dir (final r) = []
           /\ (path_fits dir (cache_filename start' end') = true ->
               exists v, result (query start' end' dir force' (final r)) = Ok v)).
Proof.
  cbn zeta.
  assert (Hok : can_mkdir (files w) dir = true ->
                (entries_at (files w) dir !! cache_filename start_time end_time
                   = None ->
                 path_fits dir (cache_filename start_time end_time) = true) ->
                (exists v, result (query start_time end_time dir force w) = Ok v)
                /\ exists es,
                     files (final (query start_time end_time dir force w)) !! dir
                     = Some (Directory es)).
  { intros Hcan Hfit. pose proof (made_dir_lookup _ _ Hcan) as Hw1.
    rewrite (query_run _ _ _ _ _ _ _ _ _ Hcan Hfit). cbn zeta.
    destruct (fetch_keeps_directory start_time end_time dir
                (cache_filename start_time end_time) _ _ Hw1)
      as (es' & Hes' & _).
    pose proof (fetch_result start_time end_time dir
                  (cache_filename start_time end_time) (made_dir dir w)) as Hres.
    destruct (query_and_cache _ _ _ _ _ _ _ _) as [[r w'] t].
    cbn [result final fst snd] in *.
    destruct (if force then None else _) as [nd|];
      [destruct (cached read_excel nd) |];
      cbn [result final fst snd]; eauto. }
  assert (Hdir : can_mkdir (files w) dir = true ->
                 exists es,
                   files (final (query start_time end_time dir force w)) !! dir
                   = Some (Directory es)).
  { intros Hcan.
    destruct (fits_or_refused (entries_at (files w) dir) dir
                (cache_filename start_time end_time)) as [Hfit | [Hmiss Hfit]].
    - now destruct (Hok Hcan Hfit).
    - rewrite (query_run_refused _ _ _ _ _ _ _ _ _ Hcan Hmiss Hfit).
      cbn [final fst snd]. rewrite (made_dir_lookup _ _ Hcan). eauto. }
  split.
  - split; [| intros [Hcan Hfit]; now destruct (Hok Hcan Hfit)].
    intros [v Hv]. destruct (can_mkdir (files w) dir) eqn:Hcan.
    + split; [reflexivity |].
      destruct (fits_or_refused (entries_at (files w) dir) dir
                  (cache_filename start_time end_time))
        as [Hfit | [Hmiss Hfit]]; [exact Hfit |].
      rewrite (query_run_refused _ _ _ _ _ _ _ _ _ Hcan Hmiss Hfit) in Hv.
      discriminate.
    + rewrite (query_run_bad _ _ _ _ _ _ _ _ _ Hcan) in Hv. discriminate.
  - intros Hcan. destruct (Hdir Hcan) as [es Hes].
    split; [eauto |]. intros start' end' force'.
    destruct (made_dir_id _ _ _ Hes) as (_ & Hev & Hcan').
    split; [exact Hev |]. intros Hfit'.
    rewrite (query_run _ _ _ _ _ _ _ _ _ Hcan' (fun _ => Hfit')). cbn zeta.
    pose proof (fetch_result start' end' dir (cache_filename start' end')
                  (made_dir dir (final (query start_time end_time dir force w))))
      as Hres.
    destruct (query_and_cache _ _ _ _ _ _ _ _) as [[r w'] t].
    cbn [result fst] in Hres.
    destruct (if force' then None else _) as [nd|];
      [destruct (cached read_excel nd) |];
      cbn [result fst]; eauto.
Qed.

End QuerySequences.

(** ** More on the cache administration *)

Section AdminMore.

Local Open Scope list_scope.

Context {W : Type}.




Lemma unlink_trace_deleted (dir : string) (names : list string)
    (es : gmap string node) (d n : string) :
  In (EvLog INFO (MsgDeleted d n)) (unlink_trace dir names es) ->
  In n names /\ exists bytes, es !! n = Some (File bytes).
Proof.
  revert es. induction names as [|name names IH]; intros es; cbn; [tauto |].
  intros [H | [H | H]]; [discriminate | |].
  - destruct (es !! name) as [[bytes|]|] eqn:Hnd; try discriminate.
    injection H as _ <-. eauto.
  - apply IH in H as [Hin [bytes Hb]]. rewrite unlink_one_lookup in Hb.
    destruct (es !! n) as [[bytes'|]|]; try discriminate. eauto.
Qed.

Lemma unlink_trace_counts (dir : string) (names : list string)
    (es : gmap string node) :
  length (unlink_trace dir names es) = 2 * length names
  /\ count_events is_unlink (unlink_trace dir names es) = length names
  /\ count_events is_write (unlink_trace dir names es) = 0
  /\ count_events is_source_call (unlink_trace dir names es) = 0.
Proof.
  revert es. induction names as [|name names IH]; intros es; [now cbn |].
  destruct (IH (unlink_one es name)) as (I1 & I2 & I3 & I4).
  unfold count_events in *. cbn [unlink_trace List.filter length is_unlink
    is_write is_source_call].
  rewrite I1, I2, I3, I4. repeat split; lia.
Qed.

(** X11. On a path on which [exists] does not raise (a directory, a
    regular file, or a missing path with a name that the system accepts),
    running [clear_cache] a second time with the same pattern (none, or
    one without glob special characters) changes nothing more: the file
    system stays as the first run left it and nothing is deleted. *)
Theorem clear_twice (dir : string) (pattern : option string) (w : world W) :
  exists_raises (files w) dir = false ->
  plain_pattern pattern = true ->
  let r1 := clear_cache dir pattern w in
  let r2 := clear_cache dir pattern (final r1) in
  result r2 = Ok tt
  /\ final r2 = final r1
  /\ forall d n, ~ In (EvLog INFO (MsgDeleted d n)) (events r2).
Proof.
  intros Hex Hplain. cbn zeta.
  pose proof (glob_of_ok _ Hplain) as Hok.
  rewrite (clear_run dir pattern w Hok), Hex.
  destruct (files w !! dir) as [[| |es]|] eqn:Hdir;
    cbn [final fst snd]; rewrite (clear_run _ _ _ Hok);
    try (rewrite Hdir, ?Hex; cbn [result final events fst snd];
         repeat split; cbn; intuition discriminate).
  cbn [files source_state]. rewrite lookup_insert_eq.
  cbn [result final events fst snd].
  set (pat := glob_of pattern).
  set (es1 := unlinked (names_matching pat es) es).
  assert (Hfix : unlinked (names_matching pat es1) es1 = es1).
  { apply map_eq. intros n. rewrite unlinked_lookup.
    destruct (es1 !! n) as [[bytes|]|] eqn:Hn; try reflexivity.
    destruct (decide (n ∈ names_matching pat es1)) as [Hin|]; [| reflexivity].
    exfalso. apply list_elem_of_In, names_matching_in in Hin as [_ Hsel].
    unfold es1 in Hn. rewrite unlinked_lookup in Hn.
    destruct (es !! n) as [[bytes'|]|] eqn:Hn'; try discriminate.
    destruct (decide (n ∈ names_matching pat es)) as [|Hout]; [discriminate |].
    apply Hout, list_elem_of_In, names_matching_in. rewrite Hn'. eauto. }
  split; [reflexivity |]. split.
  - rewrite Hfix. now rewrite insert_insert_eq.
  - intros d n Hin. apply unlink_trace_deleted in Hin as [Hin [bytes Hb]].
    apply names_matching_in in Hin as [_ Hsel].
    unfold es1 in Hb. rewrite unlinked_lookup in Hb.
    destruct (es !! n) as [[bytes'|]|] eqn:Hn'; try discriminate.
    destruct (decide (n ∈ names_matching pat es)) as [|Hout]; [discriminate |].
    apply Hout, list_elem_of_In, names_matching_in. rewrite Hn'. eauto.
Qed.

(** X12. On a path on which [exists] does not raise: after [clear_cache]
    without a pattern, [list_cache_files] returns exactly the [.xlsx]
    names that belong to sub-directories, which cannot be unlinked; so on a
    directory that holds only regular files the listing is empty
    afterwards. *)
Theorem clear_all_then_list (dir : string) (w : world W) :
  exists_raises (files w) dir = false ->
  let r := clear_cache dir None w in
  exists names,
    result (list_cache_files dir (final r)) = Ok names
    /\ (forall n, In n names
                  <-> entries_at (files w) dir !! n = Some SubDir
                      /\ str_endswith ".xlsx" n = true)
    /\ ((forall n, entries_at (files w) dir !! n <> Some SubDir) ->
        names = []).
Proof.
  intros Hex. cbn zeta.
  destruct (clear_effect dir None w eq_refl) as (_ & E2 & _).
  cbn zeta in E2. cbn [glob_of] in E2.
  assert (Hex' : exists_raises (files (final (clear_cache dir None w))) dir
                 = false).
  { rewrite (clear_run dir None w eq_refl), Hex.
    destruct (files w !! dir) as [[| |es]|] eqn:Hdir;
      cbn [final fst snd]; try exact Hex.
    unfold exists_raises. cbn [files]. now rewrite lookup_insert_eq. }
  rewrite list_run, Hex'. eexists. split; [reflexivity |].
  assert (Hin : forall n,
    In n (names_matching "*.xlsx"
            (entries_at (files (final (clear_cache dir None w))) dir))
    <-> entries_at (files w) dir !! n = Some SubDir
        /\ str_endswith ".xlsx" n = true).
  { intros n. rewrite names_matching_in, E2, !fnmatch_endswith_xlsx.
    destruct (entries_at (files w) dir !! n) as [[bytes|]|];
      destruct (str_endswith ".xlsx" n); split;
      try (intros [[x Hx] H]; discriminate);
      try (intros [H1 H2]; discriminate); eauto. }
  split; [exact Hin |].
  intros Hno.
  destruct (names_matching _ _) as [|n names] eqn:Hn; [reflexivity |].
  exfalso. apply (Hno n). apply Hin. now left.
Qed.

(** X13. What [clear_cache] does on a directory, event by event (no
    pattern, or one without glob special characters): it attempts one unlink for each entry
    its glob selects and logs once after each attempt, and that is all; it
    never writes and never calls the data source. *)
Theorem clear_accounting (dir : string) (pattern : option string)
    (w : world W) (es : gmap string node) :
  plain_pattern pattern = true ->
  files w !! dir = Some (Directory es) ->
  let r := clear_cache dir pattern w in
  let selected := names_matching (glob_of pattern) es in
  count_events is_unlink (events r) = length selected
  /\ length (events r) = 2 * length selected
  /\ count_events is_write (events r) = 0
  /\ count_events is_source_call (events r) = 0
  /\ source_state (final r) = source_state w.
Proof.
  intros Hplain Hdir. cbn zeta.
  rewrite (clear_run _ _ _ (glob_of_ok _ Hplain)), Hdir.
  cbn [events final snd fst source_state].
  destruct (unlink_trace_counts dir (names_matching (glob_of pattern) es) es)
    as (C1 & C2 & C3 & C4).
  now rewrite C1, C2, C3, C4.
Qed.

Lemma contains_empty (n : string) : str_contains "" n = true.
Proof. now destruct n. Qed.

(** X14. The empty string as pattern counts as no pattern: although every
    name contains the empty string, [clear_cache] then deletes the regular
    files that end in [.xlsx] and keeps every other file. *)
Theorem clear_empty_pattern (dir : string) (w : world W) :
  let r := clear_cache dir (Some "") w in
  r = clear_cache dir None w
  /\ forall n bytes,
       entries_at (files w) dir !! n = Some (File bytes) ->
       str_contains "" n = true
       /\ entries_at (files (final r)) dir !! n
          = (if str_endswith ".xlsx" n then None else Some (File bytes)).
Proof.
  cbn zeta. split; [reflexivity |]. intros n bytes Hn.
  split; [apply contains_empty |].
  destruct (clear_effect dir (Some "") w eq_refl) as (_ & E2 & _).
  cbn zeta in E2. cbn [glob_of] in E2.
  now rewrite E2, Hn, fnmatch_endswith_xlsx.
Qed.

(** X15. Clearing by a time deletes the artifacts of that time: with the
    sanitized start time of a range as pattern (when it is not empty), and
    likewise with its sanitized end time, [clear_cache] deletes the
    artifact file of the range. A sanitized time never holds a glob
    special character, so the pattern is always taken literally. *)
Theorem clear_by_time (start_time end_time dir : string) (w : world W)
    (bytes : string) :
  entries_at (files w) dir !! cache_filename start_time end_time
    = Some (File bytes) ->
  (safe_time start_time <> "" ->
   entries_at (files (final (clear_cache dir (Some (safe_time start_time)) w)))
     dir !! cache_filename start_time end_time = None)
  /\ (safe_time end_time <> "" ->
      entries_at (files (final (clear_cache dir (Some (safe_time end_time)) w)))
        dir !! cache_filename start_time end_time = None).
Proof.
  intros Hnode. split; intros Hne.
  - destruct (clear_effect dir (Some (safe_time start_time)) w
                (safe_time_literal _)) as (_ & E2 & _).
    cbn zeta in E2. rewrite E2, Hnode, (glob_of_some _ Hne).
    rewrite (fnmatch_contains _ _ (safe_time_literal _)).
    now rewrite filename_contains_start.
  - destruct (clear_effect dir (Some (safe_time end_time)) w
                (safe_time_literal _)) as (_ & E2 & _).
    cbn zeta in E2. rewrite E2, Hnode, (glob_of_some _ Hne).
    rewrite (fnmatch_contains _ _ (safe_time_literal _)).
    now rewrite filename_contains_end.
Qed.

End AdminMore.

(** ** Queries and administration together *)

Section Lifecycle.

Local Open Scope list_scope.

Context {Table W : Type}.
Variable df_empty : Table -> bool.
Variable to_excel : Table -> string.
Variable read_excel : string -> option Table.
Variable source : string -> string -> W -> source_result Table * W.

Local Abbreviation query :=
  (query_data_with_cache df_empty to_excel read_excel source).

Lemma listed (dir name : string) (w : world W) :
  is_Some (entries_at (files w) dir !! name) ->
  str_endswith ".xlsx" name = true ->
  exists names, result (list_cache_files dir w) = Ok names /\ In name names.
Proof.
  intros [nd Hnd] Hend.
  destruct (entries_at_some _ _ _ _ Hnd) as (es & Hdir & Hes).
  rewrite (list_run_dir _ _ _ Hdir). eexists. split; [reflexivity |].
  apply names_matching_in. rewrite fnmatch_endswith_xlsx. eauto.
Qed.

(** X16. Whenever the query returns a table, [list_cache_files] on the
    world it leaves lists the cache file name of the range. *)
Theorem query_then_list (start_time end_time dir : string) (force : bool)
    (w : world W) (t : Table) :
  let r := query start_time end_time dir force w in
  result r = Ok (Some t) ->
  exists names,
    result (list_cache_files dir (final r)) = Ok names
    /\ In (cache_filename start_time end_time) names.
Proof.
  cbn zeta. intros Hres.
  apply listed; [| apply filename_endswith_xlsx].
  destruct (can_mkdir (files w) dir) eqn:Hcan.
  2: { rewrite (query_run_bad _ _ _ _ _ _ _ _ _ Hcan) in Hres. discriminate. }
  pose proof (made_dir_lookup _ _ Hcan) as Hw1.
  destruct (fits_or_refused (entries_at (files w) dir) dir
              (cache_filename start_time end_time)) as [Hfit | [Hmiss Hfit]].
  2: { rewrite (query_run_refused _ _ _ _ _ _ _ _ _ Hcan Hmiss Hfit) in Hres.
       discriminate. }
  revert Hres. rewrite (query_run _ _ _ _ _ _ _ _ _ Hcan Hfit). cbn zeta.
  destruct (fetch_keeps_directory df_empty to_excel source
              start_time end_time dir
              (cache_filename start_time end_time) _ _ Hw1)
    as (es' & Hes' & Hsome).
  destruct (query_and_cache _ _ _ _ _ _ _ _) as [[r w'] tr].
  cbn [result final fst snd] in *.
  destruct (if force then None else _) as [nd|] eqn:Hnd;
    [destruct (cached read_excel nd) |];
    cbn [result final fst snd]; intros Hres.
  - destruct force; [discriminate |].
    rewrite made_dir_entries, Hnd. eauto.
  - subst r. unfold entries_at. rewrite Hes'. apply Hsome. discriminate.
  - subst r. unfold entries_at. rewrite Hes'. apply Hsome. discriminate.
Qed.

(** X17. Clearing invalidates the cache. After [clear_cache] without a
    pattern, or with the sanitized start time of the range as pattern, the
    artifact of a range that was a regular file is gone, and a non-forced
    query for the range asks the source again, exactly once, and returns
    what the source gives. (The artifact was found under its path, so the
    system accepts that path; in a map that holds an entry under a path
    that the system refuses, the query after the deletion raises at line
    42 instead.) *)
Theorem clear_then_query_refetches (start_time end_time dir : string)
    (pattern : option string) (w : world W) (bytes : string) :
  entries_at (files w) dir !! cache_filename start_time end_time
    = Some (File bytes) ->
  pattern = None
  \/ (pattern = Some (safe_time start_time) /\ safe_time start_time <> "") ->
  let r1 := clear_cache dir pattern w in
  let r2 := query start_time end_time dir false (final r1) in
  entries_at (files (final r1)) dir !! cache_filename start_time end_time = None
  /\ if path_fits dir (cache_filename start_time end_time)
     then count_events is_source_call (events r2) = 1
          /\ result r2
             = Ok (returned df_empty
                     (fst (source start_time end_time (source_state w))))
     else count_events is_source_call (events r2) = 0
          /\ result r2 = Raise OSError.
Proof.
  intros Hnode Hpat. cbn zeta.
  destruct (entries_at_some _ _ _ _ Hnode) as (es & Hdir & Hes).
  assert (Hplain : plain_pattern pattern = true).
  { destruct Hpat as [-> | [-> _]]; [reflexivity | apply safe_time_literal]. }
  assert (Hsel : Glob.fnmatch (cache_filename start_time end_time)
                   (glob_of pattern) = true).
  { destruct Hpat as [-> | [-> Hne]].
    - cbn [glob_of]. rewrite fnmatch_endswith_xlsx.
      apply filename_endswith_xlsx.
    - rewrite (glob_of_some _ Hne),
        (fnmatch_contains _ _ (safe_time_literal _)).
      apply filename_contains_start. }
  destruct (clear_effect dir pattern w Hplain) as (_ & E2 & _).
  cbn zeta in E2.
  assert (Hgone : entries_at (files (final (clear_cache dir pattern w))) dir
                    !! cache_filename start_time end_time = None)
    by now rewrite E2, Hnode, Hsel.
  split; [exact Hgone |].
  assert (Hst : source_state (final (clear_cache dir pattern w))
                = source_state w
                /\ can_mkdir (files (final (clear_cache dir pattern w))) dir
                   = true).
  { rewrite (clear_run _ _ _ (glob_of_ok _ Hplain)), Hdir.
    cbn [final fst snd source_state files]. unfold can_mkdir.
    now rewrite lookup_insert_eq. }
  destruct Hst as [Hst Hcan].
  destruct (path_fits dir (cache_filename start_time end_time)) eqn:Hfit.
  2: { rewrite (query_run_refused _ _ _ _ _ _ _ _ _ Hcan Hgone Hfit).
       cbn [result events fst snd]. split; [| reflexivity].
       now apply mkdir_events_count. }
  rewrite (query_run _ _ _ _ _ _ _ _ _ Hcan (fun _ => Hfit)). cbn zeta.
  rewrite Hgone.
  pose proof (fetch_calls_source_once df_empty to_excel source
                start_time end_time dir
                (cache_filename start_time end_time)
                (made_dir dir (final (clear_cache dir pattern w)))) as Hone.
  pose proof (fetch_result df_empty to_excel source start_time end_time dir
                (cache_filename start_time end_time)
                (made_dir dir (final (clear_cache dir pattern w)))) as Hres.
  rewrite made_dir_source, Hst in Hres.
  destruct (query_and_cache _ _ _ _ _ _ _ _) as [[r w'] tr].
  cbn [result events fst snd] in *. split; [| exact Hres].
  rewrite count_app, Hone.
  now rewrite (mkdir_events_count is_source_call) by reflexivity.
Qed.

(** X21. A query is a cache hit or one call of the source, never both and
    never more, unless it fails at line 42. Once the cache directory is
    there or can be made, either the query was not forced and found an
    artifact that deserializes, and then it returns that table without
    calling the source; or it calls the source exactly once and returns
    what the source gave; or there is no artifact and the system refuses
    the artifact path, and then the [OSError] of [exists] reaches the
    caller and the source is not called. *)
Theorem query_hit_or_fetch (start_time end_time dir : string) (force : bool)
    (w : world W) :
  can_mkdir (files w) dir = true ->
  let r := query start_time end_time dir force w in
  (exists bytes df,
      force = false
      /\ entries_at (files w) dir !! cache_filename start_time end_time
         = Some (File bytes)
      /\ read_excel bytes = Some df
      /\ result r = Ok (Some df)
      /\ count_events is_source_call (events r) = 0)
  \/ ((force = true
       \/ forall bytes,
            entries_at (files w) dir !! cache_filename start_time end_time
              = Some (File bytes) -> read_excel bytes = None)
      /\ result r
         = Ok (returned df_empty
                 (fst (source start_time end_time (source_state w))))
      /\ count_events is_source_call (events r) = 1)
  \/ (entries_at (files w) dir !! cache_filename start_time end_time = None
      /\ path_fits dir (cache_filename start_time end_time) = false
      /\ result r = Raise OSError
      /\ count_events is_source_call (events r) = 0).
Proof.
  intros Hcan. cbn zeta.
  destruct (fits_or_refused (entries_at (files w) dir) dir
              (cache_filename start_time end_time)) as [Hfit | [Hmiss Hfit]].
  2: { right. right.
       rewrite (query_run_refused _ _ _ _ _ _ _ _ _ Hcan Hmiss Hfit).
       cbn [result events fst snd]. repeat split; try assumption.
       now apply mkdir_events_count. }
  rewrite (query_run _ _ _ _ _ _ _ _ _ Hcan Hfit). cbn zeta.
  pose proof (fetch_calls_source_once df_empty to_excel source
                start_time end_time dir
                (cache_filename start_time end_time) (made_dir dir w)) as Hone.
  pose proof (fetch_result df_empty to_excel source start_time end_time dir
                (cache_filename start_time end_time) (made_dir dir w)) as Hres.
  rewrite made_dir_source in Hres.
  pose proof (mkdir_events_count is_source_call dir w (fun _ => eq_refl)) as Hm.
  destruct (query_and_cache _ _ _ _ _ _ _ _) as [[r w'] tr].
  cbn [result events fst snd] in Hone, Hres.
  destruct force.
  - right. left. cbn [result events fst snd]. split; [now left |].
    split; [exact Hres |]. now rewrite count_app, Hm, Hone.
  - destruct (entries_at (files w) dir !! cache_filename start_time end_time)
      as [[bytes|]|] eqn:Hnd; cbn [cached].
    + destruct (read_excel bytes) as [df|] eqn:Hread.
      * left. exists bytes, df. cbn [result events fst snd].
        repeat split; try assumption. now rewrite count_app, Hm.
      * right. left. cbn [result events fst snd]. split.
        { right. intros bytes' Hb. congruence. }
        split; [exact Hres |]. now rewrite !count_app, Hm, Hone.
    + right. left. cbn [result events fst snd]. split.
      { right. intros bytes' Hb. discriminate. }
      split; [exact Hres |]. now rewrite !count_app, Hm, Hone.
    + right. left. cbn [result events fst snd]. split.
      { right. intros bytes' Hb. discriminate. }
      split; [exact Hres |]. now rewrite count_app, Hm, Hone.
Qed.

Lemma fetch_keeps_entry (start_time end_time dir name : string)
    (w : world W) :
  is_Some (entries_at (files w) dir !! name) ->
  is_Some (entries_at
             (files (final (query_and_cache df_empty to_excel source
                              start_time end_time dir name w))) dir !! name).
Proof.
  intros Hsome.
  destruct (fetch_frame df_empty to_excel read_excel source start_time end_time dir name w)
    as (_ & _ & [-> | (t & es & _ & ->)] & _); [exact Hsome |].
  unfold entries_at. rewrite lookup_insert_eq, lookup_insert_eq. eauto.
Qed.

(** X18. The example run of the module, started without a cache: when the
    source answers the first query with a non-empty table [t] whose sheet
    reads back as [t], the script prints [t] for the first query and again
    for the second, which comes from the cache; the forced third query
    prints what the source gives then; the listing holds the cache file;
    and the source has been called twice, not three times. *)
Theorem main_calls_source_twice (w : world W) (t : Table) (s : W) :
  can_mkdir (files w) "./cache" = true ->
  entries_at (files w) "./cache" !! cache_filename "2024-01-01" "2024-01-10"
    = None ->
  source "2024-01-01" "2024-01-10" (source_state w) = (SrcTable t, s) ->
  df_empty t = false ->
  read_excel (to_excel t) = Some t ->
  let r := main df_empty to_excel read_excel source w in
  exists names,
    result r
      = Ok [PrintFirst; PrintShape (Some t); PrintSecond; PrintShape (Some t);
            PrintForced;
            PrintShape (returned df_empty
                          (fst (source "2024-01-01" "2024-01-10" s)));
            PrintFiles names]
    /\ In (cache_filename "2024-01-01" "2024-01-10") names
    /\ count_events is_source_call (events r) = 2.
Proof.
  intros Hcan Hnone Hsrc Hemp Hround. cbn zeta. unfold main. cbn zeta.
  assert (Hsub : entries_at (files w) "./cache"
                   !! cache_filename "2024-01-01" "2024-01-10" <> Some SubDir)
    by (rewrite Hnone; discriminate).
  assert (Hfit : path_fits "./cache" (cache_filename "2024-01-01" "2024-01-10")
                 = true) by (vm_compute; reflexivity).
  unfold mbind, M_bind, bind.
  rewrite (store_run df_empty to_excel read_excel source _ _ _ false _ _ _
             Hcan Hfit Hnone Hsub Hsrc Hemp).
  set (name := cache_filename "2024-01-01" "2024-01-10") in *.
  set (w1 := World _ s).
  assert (Hnode1 : entries_at (files w1) "./cache" !! name
                   = Some (File (to_excel t))) by apply stored_lookup.
  rewrite (cache_hit_run _ _ _ _ _ _ _ _ _ _ Hnode1 Hround).
  destruct (entries_at_some _ _ _ _ Hnode1) as (es1 & Hdir1 & _).
  destruct (made_dir_id _ _ _ Hdir1) as (Hw1 & Hev1 & Hcan1).
  rewrite (query_run _ _ _ _ _ _ _ _ _ Hcan1 (fun _ => Hfit)). cbn zeta.
  rewrite Hw1, Hev1. fold name.
  pose proof (fetch_calls_source_once df_empty to_excel source
                "2024-01-01" "2024-01-10" "./cache" name w1) as Hone.
  pose proof (fetch_result df_empty to_excel source
                "2024-01-01" "2024-01-10" "./cache" name w1) as Hres.
  pose proof (fetch_keeps_entry "2024-01-01" "2024-01-10" "./cache" name w1
                ltac:(rewrite Hnode1; eauto)) as Hkeep.
  destruct (query_and_cache _ _ _ _ _ _ _ _) as [[r3 w3] t3].
  cbn [result final events fst snd] in *. subst r3.
  destruct Hkeep as [nd3 Hnd3].
  destruct (entries_at_some _ _ _ _ Hnd3) as (es3 & Hdir3 & Hes3).
  rewrite (list_run_dir _ _ _ Hdir3).
  cbn [result events fst snd source_state].
  eexists. split; [reflexivity |]. split.
  - apply names_matching_in. rewrite fnmatch_endswith_xlsx.
    split; [eauto | apply filename_endswith_xlsx].
  - unfold ret. cbn [events snd fst app]. rewrite !count_app, app_nil_r.
    pose proof (mkdir_events_count is_source_call "./cache" w
                  (fun _ => eq_refl)) as Hm.
    unfold count_events in *.
    cbn [List.filter is_source_call length]. now rewrite Hm, Hone.
Qed.

End Lifecycle.

(** ** The stand-in data source *)

Section SourceFacts.

Local Open Scope list_scope.

Context {D R : Type}.
Variable date_range : string -> string -> option (list D).
Variable randbelow : Z -> R -> Z * R.

Lemma comprehension_some {A} (draw : R -> option A * R) (P : A -> Prop)
    (n : nat) (s : R) :
  (forall s0, exists x s1, draw s0 = (Some x, s1) /\ P x) ->
  exists xs s', comprehension draw n s = (Some xs, s')
                /\ length xs = n /\ Forall P xs.
Proof.
  intros Hdraw. revert s. induction n as [|n IH]; intros s.
  - exists [], s. now repeat split.
  - cbn [comprehension].
    destruct (Hdraw s) as (x & s1 & -> & Hx).
    destruct (IH s1) as (xs & s2 & -> & Hlen & Hall).
    exists (x :: xs), s2. repeat split; [cbn; lia | now constructor].
Qed.

Hypothesis randbelow_lt :
  forall n s, (0 < n)%Z -> (0 <= fst (randbelow n s) < n)%Z.

Lemma randint_in_range (s : R) :
  exists v s', randint randbelow 100 1000 s = (Some v, s')
               /\ (100 <= v <= 1000)%Z.
Proof.
  unfold randint. cbn [Z.ltb Z.sub Z.add Z.opp Z.pos_sub Z.compare].
  change (0 <? 1000 - 100 + 1)%Z with true. cbn match.
  pose proof (randbelow_lt (1000 - 100 + 1)%Z s ltac:(lia)) as Hb.
  destruct (randbelow (1000 - 100 + 1)%Z s) as [x s'].
  cbn [fst] in Hb. exists (100 + x)%Z, s'. split; [reflexivity | lia].
Qed.

Lemma choice_in_list (s : R) :
  exists c s', choice randbelow ["A"; "B"; "C"] s = (Some c, s')
               /\ In c ["A"; "B"; "C"].
Proof.
  unfold choice. cbn [length].
  pose proof (randbelow_lt (Z.of_nat 3) s ltac:(lia)) as Hb.
  destruct (randbelow (Z.of_nat 3) s) as [i s']. cbn [fst] in Hb.
  assert (Hi : Z.to_nat i = 0 \/ Z.to_nat i = 1 \/ Z.to_nat i = 2) by lia.
  destruct Hi as [-> | [-> | ->]]; eexists _, s';
    (split; [reflexivity | cbn; tauto]).
Qed.

(** X19. The stand-in source. When [date_range] raises, it raises, without
    drawing a random number or logging. Otherwise it returns a frame with
    one row per date: the dates as their column, as many values, each
    between 100 and 1000, and as many categories, each one of A, B, C; it
    logs the shape once; and the frame is empty exactly when the range has
    no date. It never returns [None]. *)
Theorem stand_in_builds_frame (start_time end_time : string) (s : R) :
  match date_range start_time end_time with
  | None =>
      query_data_from_source date_range randbelow start_time end_time s
        = (SrcRaises, s, [])
  | Some dates =>
      exists df s',
        query_data_from_source date_range randbelow start_time end_time s
          = (SrcTable df, s', [SrcLogged (length dates) 3])
        /\ col_date df = dates
        /\ length (col_value df) = length dates
        /\ length (col_category df) = length dates
        /\ Forall (fun v => (100 <= v <= 1000)%Z) (col_value df)
        /\ Forall (fun c => In c ["A"; "B"; "C"]) (col_category df)
        /\ (frame_empty df = true <-> dates = [])
  end.
Proof.
  unfold query_data_from_source.
  destruct (date_range start_time end_time) as [dates|]; [| reflexivity].
  destruct (comprehension_some (randint randbelow 100 1000)
              (fun v => (100 <= v <= 1000)%Z) (length dates) s
              randint_in_range) as (vs & s1 & -> & Hlv & Hv).
  destruct (comprehension_some (choice randbelow ["A"; "B"; "C"])
              (fun c => In c ["A"; "B"; "C"]) (length dates) s1
              choice_in_list) as (cs & s2 & -> & Hlc & Hc).
  exists (Frame dates vs cs), s2. cbn [col_date col_value col_category].
  repeat split; try assumption.
  - unfold frame_empty. cbn. now destruct dates.
  - intros ->. reflexivity.
Qed.

End SourceFacts.

Section SourceAndCache.

Local Open Scope list_scope.

Context {D R : Type}.
Variable date_range : string -> string -> option (list D).
Variable randbelow : Z -> R -> Z * R.
Variable to_excel : frame D -> string.
Variable read_excel : string -> option (frame D).

(** X20. The cached query over the stand-in source, with a cache
    directory that is there or can be made and an artifact path that the
    system accepts, when it finds no artifact (or is forced). For a range
    without a date it logs a warning, returns [None] and stores nothing,
    and the generator is left as it was; for a range that [date_range]
    rejects it logs the failure as an error and returns [None] as well. *)
Theorem stand_in_without_rows (start_time end_time dir : string)
    (force : bool) (w : world R) :
  can_mkdir (files w) dir = true ->
  path_fits dir (cache_filename start_time end_time) = true ->
  (if force then None
   else entries_at (files w) dir !! cache_filename start_time end_time) = None ->
  let r := query_data_with_cache frame_empty to_excel read_excel
             (stand_in_source date_range randbelow)
             start_time end_time dir force w in
  (date_range start_time end_time = Some [] ->
   result r = Ok None
   /\ final r = made_dir dir w
   /\ In (EvLog WARNING MsgEmptyResult) (events r)
   /\ count_events is_write (events r) = 0)
  /\ (date_range start_time end_time = None ->
      result r = Ok None
      /\ final r = made_dir dir w
      /\ In (EvLog ERROR (MsgQueryFailed SourceError)) (events r)
      /\ count_events is_write (events r) = 0).
Proof.
  intros Hcan Hfit Hmiss. cbn zeta.
  rewrite (query_run _ _ _ _ _ _ _ _ _ Hcan (fun _ => Hfit)). cbn zeta.
  rewrite Hmiss.
  rewrite fetch_run, made_dir_source. cbn zeta.
  pose proof (mkdir_events_count is_write dir w (fun _ => eq_refl)) as Hwr.
  assert (Hw : World (files (made_dir dir w)) (source_state w) = made_dir dir w).
  { rewrite <- (made_dir_source dir w). now destruct (made_dir dir w). }
  unfold stand_in_source, query_data_from_source.
  split; intros ->; cbn [comprehension fst frame_empty col_date length];
    cbn [result final events fst snd];
    (split; [reflexivity |]); (split; [exact Hw |]);
    (split; [apply in_or_app; right; cbn; tauto |]);
    rewrite count_app, Hwr; reflexivity.
Qed.

End SourceAndCache.

(** ** The further theorems at concrete inputs *)

Lemma aliased_ranges_share_cache_witness :
  cache_filename Demo.slashed Demo.slashed = cache_filename Demo.dotted Demo.dotted
  /\ Demo.slashed <> Demo.dotted
  /\ path_fits "./cache" (cache_filename Demo.slashed Demo.slashed) = true
  /\ result (Demo.query Demo.dotted Demo.dotted "./cache" false
               (final (Demo.query Demo.slashed Demo.slashed "./cache" false
                                  Demo.cold)))
     = Ok (Some "rows")
  /\ count_events is_source_call
       (events (Demo.query Demo.dotted Demo.dotted "./cache" false
                  (final (Demo.query Demo.slashed Demo.slashed "./cache" false
                                     Demo.cold))))
     = 0.
Proof.
  assert (H1 : cache_filename Demo.slashed Demo.slashed
               = cache_filename Demo.dotted Demo.dotted) by reflexivity.
  assert (H2 : can_mkdir (files Demo.cold) "./cache" = true)
    by (vm_compute; reflexivity).
  assert (H3 : entries_at (files Demo.cold) "./cache"
                 !! cache_filename Demo.slashed Demo.slashed = None)
    by (vm_compute; reflexivity).
  assert (H4 : path_fits "./cache" (cache_filename Demo.slashed Demo.slashed)
               = true) by (vm_compute; reflexivity).
  split; [exact H1 |]. split; [discriminate |]. split; [exact H4 |].
  destruct (aliased_ranges_share_cache Demo.df_empty Demo.to_excel
              Demo.read_excel Demo.source Demo.slashed Demo.slashed
              Demo.dotted Demo.dotted "./cache" Demo.cold "rows" []
              H1 H2 H4 H3 eq_refl eq_refl eq_refl) as (_ & A & B & _).
  split; [exact A | exact B].
Defined.

Lemma write_failure_tolerated_witness :
  entries_at (files Demo.blocked) "./cache"
    !! cache_filename "2024-01-01" "2024-01-10" = Some SubDir
  /\ result (Demo.query "2024-01-01" "2024-01-10" "./cache" false Demo.blocked)
     = Ok (Some "rows")
  /\ final (Demo.query "2024-01-01" "2024-01-10" "./cache" false Demo.blocked)
     = World (files Demo.blocked) [SrcTable "more"].
Proof.
  assert (H1 : entries_at (files Demo.blocked) "./cache"
                 !! cache_filename "2024-01-01" "2024-01-10" = Some SubDir)
    by (vm_compute; reflexivity).
  split; [exact H1 |].
  destruct (write_failure_tolerated Demo.df_empty Demo.to_excel
              Demo.read_excel Demo.source "2024-01-01" "2024-01-10" "./cache"
              false Demo.blocked "rows" [SrcTable "more"] H1 eq_refl eq_refl)
    as (A & B & _).
  split; [exact A | exact B].
Defined.

Lemma empty_result_not_cached_witness :
  can_mkdir (files Demo.empty_then_rows) "./cache" = true
  /\ path_fits "./cache" (cache_filename "2024-01-01" "2024-01-10") = true
  /\ entries_at (files Demo.empty_then_rows) "./cache"
       !! cache_filename "2024-01-01" "2024-01-10" = None
  /\ returned Demo.df_empty
       (fst (Demo.source "2024-01-01" "2024-01-10"
               (source_state Demo.empty_then_rows))) = None
  /\ result (Demo.query "2024-01-01" "2024-01-10" "./cache" false
               Demo.empty_then_rows) = Ok None
  /\ result (Demo.query "2024-01-01" "2024-01-10" "./cache" false
               (final (Demo.query "2024-01-01" "2024-01-10" "./cache" false
                                  Demo.empty_then_rows)))
     = Ok (Some "rows").
Proof.
  assert (H1 : can_mkdir (files Demo.empty_then_rows) "./cache" = true)
    by (vm_compute; reflexivity).
  assert (H2 : entries_at (files Demo.empty_then_rows) "./cache"
                 !! cache_filename "2024-01-01" "2024-01-10" = None)
    by (vm_compute; reflexivity).
  assert (H3 : returned Demo.df_empty
                 (fst (Demo.source "2024-01-01" "2024-01-10"
                         (source_state Demo.empty_then_rows))) = None)
    by reflexivity.
  assert (H4 : path_fits "./cache" (cache_filename "2024-01-01" "2024-01-10") = true) by (vm_compute; reflexivity).
  split; [exact H1 |]. split; [exact H4 |]. split; [exact H2 |].
  split; [exact H3 |].
  destruct (empty_result_not_cached Demo.df_empty Demo.to_excel
              Demo.read_excel Demo.source "2024-01-01" "2024-01-10" "./cache"
              false Demo.empty_then_rows H1 H4 H2 H3) as (A & _ & _ & B).
  split; [exact A | exact B].
Defined.

Lemma refresh_then_query_witness :
  can_mkdir (files Demo.warm) "./cache" = true
  /\ path_fits "./cache" (cache_filename "2024-01-01" "2024-01-10") = true
  /\ entries_at (files Demo.warm) "./cache"
       !! cache_filename "2024-01-01" "2024-01-10" <> Some SubDir
  /\ result (Demo.query "2024-01-01" "2024-01-10" "./cache" false
               (final (Demo.query "2024-01-01" "2024-01-10" "./cache" true
                                  Demo.warm)))
     = Ok (Some "rows").
Proof.
  assert (H1 : can_mkdir (files Demo.warm) "./cache" = true)
    by (vm_compute; reflexivity).
  assert (H2 : entries_at (files Demo.warm) "./cache"
                 !! cache_filename "2024-01-01" "2024-01-10" <> Some SubDir)
    by (vm_compute; discriminate).
  assert (H3 : path_fits "./cache" (cache_filename "2024-01-01" "2024-01-10") = true) by (vm_compute; reflexivity).
  split; [exact H1 |]. split; [exact H3 |]. split; [exact H2 |].
  destruct (refresh_then_query Demo.df_empty Demo.to_excel Demo.read_excel
              Demo.source "2024-01-01" "2024-01-10" "./cache" Demo.warm
              "rows" [] H1 H3 H2 eq_refl eq_refl eq_refl) as (_ & _ & A & _).
  exact A.
Defined.

Lemma query_makes_directory_witness :
  can_mkdir (files Demo.failing) "./cache" = true
  /\ files Demo.failing !! "./cache" = None
  /\ exists es,
       files (final (Demo.query "2024-01-01" "2024-01-10" "./cache" false
                       Demo.failing)) !! "./cache" = Some (Directory es).
Proof.
  assert (H1 : can_mkdir (files Demo.failing) "./cache" = true)
    by (vm_compute; reflexivity).
  split; [exact H1 |]. split; [vm_compute; reflexivity |].
  destruct (query_makes_directory Demo.df_empty Demo.to_excel Demo.read_excel
              Demo.source "2024-01-01" "2024-01-10" "./cache" false
              Demo.failing) as (_ & A).
  exact (proj1 (A H1)).
Defined.


Lemma clear_twice_witness :
  exists_raises (files Demo.mixed) "./cache" = false
  /\ plain_pattern (Some "2024-01") = true
  /\ final (Demo.clear "./cache" (Some "2024-01")
              (final (Demo.clear "./cache" (Some "2024-01") Demo.mixed)))
     = final (Demo.clear "./cache" (Some "2024-01") Demo.mixed).
Proof.
  assert (H0 : exists_raises (files Demo.mixed) "./cache" = false)
    by (vm_compute; reflexivity).
  assert (H1 : plain_pattern (Some "2024-01") = true) by reflexivity.
  split; [exact H0 |]. split; [exact H1 |].
  destruct (clear_twice (W:=Demo.script) "./cache" (Some "2024-01") Demo.mixed
              H0 H1) as (_ & A & _).
  exact A.
Defined.

Lemma clear_all_then_list_witness :
  exists_raises (files Demo.mixed) "./cache" = false
  /\ exists names,
       result (Demo.ls "./cache" (final (Demo.clear "./cache" None Demo.mixed)))
         = Ok names
       /\ ((forall n, entries_at (files Demo.mixed) "./cache" !! n <> Some SubDir)
           -> names = []).
Proof.
  assert (H0 : exists_raises (files Demo.mixed) "./cache" = false)
    by (vm_compute; reflexivity).
  split; [exact H0 |].
  destruct (clear_all_then_list (W:=Demo.script) "./cache" Demo.mixed H0)
    as (names & A & _ & B).
  exists names. split; [exact A | exact B].
Defined.

Lemma clear_accounting_witness :
  plain_pattern (Some "2024-01") = true
  /\ files Demo.mixed !! "./cache"
     = Some (Directory (entries_at (files Demo.mixed) "./cache"))
  /\ count_events is_unlink
       (events (Demo.clear "./cache" (Some "2024-01") Demo.mixed)) = 3
  /\ length (events (Demo.clear "./cache" (Some "2024-01") Demo.mixed)) = 6.
Proof.
  assert (H1 : plain_pattern (Some "2024-01") = true) by reflexivity.
  assert (H2 : files Demo.mixed !! "./cache"
               = Some (Directory (entries_at (files Demo.mixed) "./cache")))
    by (vm_compute; reflexivity).
  split; [exact H1 |]. split; [exact H2 |].
  destruct (clear_accounting (W:=Demo.script) "./cache" (Some "2024-01")
              Demo.mixed _ H1 H2) as (A & B & _).
  split.
  - etransitivity; [exact A | vm_compute; reflexivity].
  - etransitivity; [exact B | vm_compute; reflexivity].
Defined.

Lemma clear_by_time_witness :
  entries_at (files Demo.warm) "./cache"
    !! cache_filename "2024-01-01" "2024-01-10" = Some (File "PKold")
  /\ safe_time "2024-01-01" <> ""
  /\ entries_at
       (files (final (Demo.clear "./cache" (Some (safe_time "2024-01-01"))
                        Demo.warm)))
       "./cache" !! cache_filename "2024-01-01" "2024-01-10" = None.
Proof.
  assert (H1 : entries_at (files Demo.warm) "./cache"
                 !! cache_filename "2024-01-01" "2024-01-10"
               = Some (File "PKold")) by (vm_compute; reflexivity).
  assert (H2 : safe_time "2024-01-01" <> "") by discriminate.
  split; [exact H1 |]. split; [exact H2 |].
  exact (proj1 (clear_by_time (W:=Demo.script) "2024-01-01" "2024-01-10"
                  "./cache" Demo.warm "PKold" H1) H2).
Defined.

Lemma query_then_list_witness :
  result (Demo.query "2024-01-01" "2024-01-10" "./cache" false Demo.cold)
    = Ok (Some "rows")
  /\ exists names,
       result (Demo.ls "./cache"
                 (final (Demo.query "2024-01-01" "2024-01-10" "./cache" false
                                    Demo.cold))) = Ok names
       /\ In (cache_filename "2024-01-01" "2024-01-10") names.
Proof.
  assert (H1 : result (Demo.query "2024-01-01" "2024-01-10" "./cache" false
                         Demo.cold) = Ok (Some "rows"))
    by (vm_compute; reflexivity).
  split; [exact H1 |].
  exact (query_then_list Demo.df_empty Demo.to_excel Demo.read_excel
           Demo.source "2024-01-01" "2024-01-10" "./cache" false Demo.cold
           "rows" H1).
Defined.

Lemma clear_then_query_refetches_witness :
  entries_at (files Demo.warm) "./cache"
    !! cache_filename "2024-01-01" "2024-01-10" = Some (File "PKold")
  /\ count_events is_source_call
       (events (Demo.query "2024-01-01" "2024-01-10" "./cache" false
                  (final (Demo.clear "./cache" None Demo.warm)))) = 1
  /\ result (Demo.query "2024-01-01" "2024-01-10" "./cache" false
               (final (Demo.clear "./cache" None Demo.warm)))
     = Ok (Some "rows").
Proof.
  assert (H1 : entries_at (files Demo.warm) "./cache"
                 !! cache_filename "2024-01-01" "2024-01-10"
               = Some (File "PKold")) by (vm_compute; reflexivity).
  split; [exact H1 |].
  assert (H2 : path_fits "./cache" (cache_filename "2024-01-01" "2024-01-10") = true) by (vm_compute; reflexivity).
  destruct (clear_then_query_refetches Demo.df_empty Demo.to_excel
              Demo.read_excel Demo.source "2024-01-01" "2024-01-10" "./cache"
              None Demo.warm "PKold" H1 (or_introl eq_refl)) as (_ & A).
  rewrite H2 in A. exact A.
Defined.

Lemma query_hit_or_fetch_witness :
  can_mkdir (files Demo.corrupt) "./cache" = true
  /\ count_events is_source_call
       (events (Demo.query "2024-01-01" "2024-01-10" "./cache" false
                  Demo.corrupt)) = 1.
Proof.
  assert (H1 : can_mkdir (files Demo.corrupt) "./cache" = true)
    by (vm_compute; reflexivity).
  split; [exact H1 |].
  destruct (query_hit_or_fetch Demo.df_empty Demo.to_excel Demo.read_excel
              Demo.source "2024-01-01" "2024-01-10" "./cache" false
              Demo.corrupt H1)
    as [(bytes & df & _ & Hb & Hr & _) | [(_ & _ & A) | (Hb & _)]];
    [| exact A |].
  - exfalso. vm_compute in Hb. injection Hb as <-. discriminate Hr.
  - exfalso. vm_compute in Hb. discriminate Hb.
Defined.

Lemma main_calls_source_twice_witness :
  can_mkdir (files Demo.twice) "./cache" = true
  /\ entries_at (files Demo.twice) "./cache"
       !! cache_filename "2024-01-01" "2024-01-10" = None
  /\ exists names,
       result (main Demo.df_empty Demo.to_excel Demo.read_excel Demo.source
                 Demo.twice)
         = Ok [PrintFirst; PrintShape (Some "rows"); PrintSecond;
               PrintShape (Some "rows"); PrintForced;
               PrintShape (Some "more"); PrintFiles names]
       /\ count_events is_source_call
            (events (main Demo.df_empty Demo.to_excel Demo.read_excel
                       Demo.source Demo.twice)) = 2.
Proof.
  assert (H1 : can_mkdir (files Demo.twice) "./cache" = true)
    by (vm_compute; reflexivity).
  assert (H2 : entries_at (files Demo.twice) "./cache"
                 !! cache_filename "2024-01-01" "2024-01-10" = None)
    by (vm_compute; reflexivity).
  split; [exact H1 |]. split; [exact H2 |].
  destruct (main_calls_source_twice Demo.df_empty Demo.to_excel
              Demo.read_excel Demo.source Demo.twice "rows" [SrcTable "more"]
              H1 H2 eq_refl eq_refl eq_refl) as (names & A & _ & B).
  exists names. split; [exact A | exact B].
Defined.

Lemma demo_randbelow_lt (n s : Z) :
  (0 < n)%Z -> (0 <= fst (DemoSource.randbelow n s) < n)%Z.
Proof. intros Hn. cbn. now apply Z.mod_pos_bound. Qed.

Lemma stand_in_builds_frame_witness :
  (forall n s, (0 < n)%Z -> (0 <= fst (DemoSource.randbelow n s) < n)%Z)
  /\ exists df s',
       query_data_from_source DemoSource.date_range DemoSource.randbelow
         "2024" "202401" 5%Z
         = (SrcTable df, s', [SrcLogged 3 3])
       /\ col_date df = [4; 5; 6]
       /\ Forall (fun v => (100 <= v <= 1000)%Z) (col_value df).
Proof.
  split; [exact demo_randbelow_lt |].
  destruct (stand_in_builds_frame DemoSource.date_range DemoSource.randbelow
              demo_randbelow_lt "2024" "202401" 5%Z)
    as (df & s' & A & B & _ & _ & C & _).
  exists df, s'. repeat split; assumption.
Defined.

Lemma stand_in_without_rows_witness :
  can_mkdir (files DemoSource.fresh) "./cache" = true
  /\ path_fits "./cache" (cache_filename "202401" "2024") = true
  /\ path_fits "./cache" (cache_filename "" "2024") = true
  /\ DemoSource.date_range "202401" "2024" = Some []
  /\ DemoSource.date_range "" "2024" = None
  /\ result (DemoSource.query "202401" "2024" "./cache" true DemoSource.fresh)
     = Ok None
  /\ result (DemoSource.query "" "2024" "./cache" true DemoSource.fresh)
     = Ok None.
Proof.
  assert (H1 : can_mkdir (files DemoSource.fresh) "./cache" = true)
    by (vm_compute; reflexivity).
  assert (H2 : path_fits "./cache" (cache_filename "202401" "2024") = true)
    by (vm_compute; reflexivity).
  assert (H3 : path_fits "./cache" (cache_filename "" "2024") = true)
    by (vm_compute; reflexivity).
  split; [exact H1 |]. split; [exact H2 |]. split; [exact H3 |].
  split; [reflexivity |]. split; [reflexivity |].
  split.
  - exact (proj1 (proj1 (stand_in_without_rows DemoSource.date_range
                           DemoSource.randbelow (fun _ => "PK")
                           (fun _ => None) "202401" "2024" "./cache" true
                           DemoSource.fresh H1 H2 eq_refl) eq_refl)).
  - exact (proj1 (proj2 (stand_in_without_rows DemoSource.date_range
                           DemoSource.randbelow (fun _ => "PK")
                           (fun _ => None) "" "2024" "./cache" true
                           DemoSource.fresh H1 H3 eq_refl) eq_refl)).
Defined.
